(** * Job portal (app.py): a shallow embedding and its checked properties

    The Flask application of [src/app.py] is modelled as request handlers
    over an explicit database state.  Each handler takes the state before
    the request, the session cookie and the request data, and returns the
    HTTP response together with the state after the request.

    Conventions of the model.
    - A Python [str] is a list of characters; a character is a code point
      below 256 (the Latin-1 block of Unicode), carried by [ascii].
    - Python integers and SQLite integers are [Z].
    - [datetime.utcnow()] is a clock reading supplied with the request,
      in microseconds.
    - [werkzeug] helpers whose internals are outside the repository
      ([generate_password_hash], [secure_filename]) are section
      variables. *)

From Stdlib Require Import ZArith List Bool Ascii String Lia.
From Stdlib Require Import Permutation Sorted DecimalString.
Import ListNotations.

Local Open Scope Z_scope.
Local Open Scope list_scope.

(* ================================================================== *)
(** ** Text *)
(* ================================================================== *)

Module Text.

Definition text := list ascii.

(** String literals of the source, as texts. *)
Definition str (s : string) : text := list_ascii_of_string s.

Definition code (c : ascii) : nat := nat_of_ascii c.

Definition between (lo hi : nat) (c : ascii) : bool :=
  (Nat.leb lo (code c) && Nat.leb (code c) hi)%bool.

Definition text_eqb (a b : text) : bool :=
  if list_eq_dec ascii_dec a b then true else false.

(** [str.isspace] on one character: TAB..CR, FS..US, SPACE, NEL, NBSP. *)
Definition py_isspace (c : ascii) : bool :=
  (between 9 13 c || between 28 32 c
   || Nat.eqb (code c) 133 || Nat.eqb (code c) 160)%bool.

(** [str.lower] on one character: A..Z and the upper-case letters of
    Latin-1 (0xC0..0xDE without the multiplication sign 0xD7). *)
Definition py_lower_char (c : ascii) : ascii :=
  if (between 65 90 c
      || (between 192 222 c && negb (Nat.eqb (code c) 215)))%bool
  then ascii_of_nat (code c + 32) else c.

Definition py_lower (s : text) : text := map py_lower_char s.

(** SQLite's [lower()] folds the 26 letters A..Z only. *)
Definition sql_lower_char (c : ascii) : ascii :=
  if between 65 90 c then ascii_of_nat (code c + 32) else c.

Definition sql_lower (s : text) : text := map sql_lower_char s.

(** [str.lstrip()], [str.rstrip()] and [str.strip()]. *)
Fixpoint lstrip (s : text) : text :=
  match s with
  | [] => []
  | c :: t => if py_isspace c then lstrip t else s
  end.

Definition rstrip (s : text) : text := rev (lstrip (rev s)).

Definition strip (s : text) : text := rstrip (lstrip s).

(** ["." in s and s.rsplit(".", 1)[1]]: the part after the last dot,
    [None] when [s] has no dot. *)
Fixpoint rsplit_dot (s : text) : option text :=
  match s with
  | [] => None
  | c :: t =>
      match rsplit_dot t with
      | Some e => Some e
      | None => if Ascii.eqb c "."%char then Some t else None
      end
  end.

(** [str(n)] for a Python integer. *)
Definition py_str_int (n : Z) : text :=
  str (NilEmpty.string_of_int (Z.to_int n)).

(** SQLite reads the pattern and the text of [LIKE] as C strings: each
    ends at its first NUL character. *)
Fixpoint c_string (s : text) : text :=
  match s with
  | [] => []
  | c :: t => if Ascii.eqb c "000"%char then [] else c :: c_string t
  end.

(** [patternCompare] of SQLite for [LIKE] without ESCAPE clause: [%]
    matches any run of characters, [_] one character, any other
    character itself up to the case of A..Z. *)
Fixpoint pattern_compare (p s : text) : bool :=
  match p with
  | [] => match s with [] => true | _ :: _ => false end
  | c :: p' =>
      if Ascii.eqb c "%"%char then
        (fix star (s : text) : bool :=
           (pattern_compare p' s
            || match s with [] => false | _ :: s' => star s' end)%bool) s
      else
        match s with
        | [] => false
        | d :: s' =>
            ((Ascii.eqb c "_"%char
              || Ascii.eqb (sql_lower_char c) (sql_lower_char d))
             && pattern_compare p' s')%bool
        end
  end.

(** [text LIKE p].  The limit that the engine puts on the length of a
    pattern is a setting of its build and is not part of the model. *)
Definition like (p s : text) : bool :=
  pattern_compare (c_string p) (c_string s).

(** SQLAlchemy renders [col.ilike(p)] for SQLite as
    [lower(col) LIKE lower(p)]. *)
Definition ilike (col p : text) : bool := like (sql_lower p) (sql_lower col).

(** [func.lower(col) == func.lower(v)]. *)
Definition lower_eq (col v : text) : bool :=
  text_eqb (sql_lower col) (sql_lower v).

(** Substring test, used to state what a search is meant to find. *)
Fixpoint prefixb (p s : text) : bool :=
  match p, s with
  | [], _ => true
  | c :: p', d :: s' => (Ascii.eqb c d && prefixb p' s')%bool
  | _ :: _, [] => false
  end.

Fixpoint infixb (p s : text) : bool :=
  (prefixb p s || match s with [] => false | _ :: s' => infixb p s' end)%bool.

End Text.
Import Text.

(* ================================================================== *)
(** ** Models (the three tables) *)
(* ================================================================== *)

(** Every writer of these tables stores a value in every column it
    sets, so the nullable text columns are modelled without NULL. *)

Module User.
Record t := mk {
  id : Z;
  fullname : text;
  email : text;
  password_hash : text;
  is_admin : bool;
  is_employer : bool;
  created_at : Z
}.
End User.

Module Job.
Record t := mk {
  id : Z;
  job_title : text;
  company : text;
  salary : text;
  description : text;
  location : text;
  job_type : text;
  created_at : Z;
  posted_by_id : Z
}.
End Job.

Module Application.
Record t := mk {
  id : Z;
  applicant_id : Z;
  job_id : Z;
  cover_letter : text;
  resume_path : option text;
  created_at : Z
}.
End Application.

(** The database, and the upload folder with the names of the saved
    resume files. *)
Record Db := mkDb {
  users : list User.t;
  jobs : list Job.t;
  applications : list Application.t;
  uploads : list text
}.

(** SQLite gives a new row of an INTEGER PRIMARY KEY table the largest
    id in use plus one. *)
Definition next_id (ids : list Z) : Z := 1 + fold_right Z.max 0 ids.

Definition get_user (db : Db) (uid : Z) : option User.t :=
  find (fun u => User.id u =? uid) (users db).

Definition get_job (db : Db) (jid : Z) : option Job.t :=
  find (fun j => Job.id j =? jid) (jobs db).

(** [Application.query.filter_by(job_id=..., applicant_id=...)]. *)
Definition applications_of (db : Db) (jid uid : Z) : list Application.t :=
  filter (fun a => (Application.job_id a =? jid)
                   && (Application.applicant_id a =? uid))%bool
         (applications db).

(* ------------------------------------------------------------------ *)
(** *** Cascading deletes of the ORM *)

(** [db.session.delete(x)] follows the relationships declared with
    [cascade="all, delete-orphan"]: [Job.applications],
    [User.posted_jobs] and [User.applications]. *)

Definition delete_application_row (db : Db) (a : Application.t) : Db :=
  mkDb (users db) (jobs db)
       (filter (fun b => negb (Application.id b =? Application.id a))
               (applications db))
       (uploads db).

Definition job_applications (db : Db) (j : Job.t) : list Application.t :=
  filter (fun a => Application.job_id a =? Job.id j) (applications db).

Definition session_delete_job (db : Db) (j : Job.t) : Db :=
  let db1 := fold_left delete_application_row (job_applications db j) db in
  mkDb (users db1)
       (filter (fun k => negb (Job.id k =? Job.id j)) (jobs db1))
       (applications db1) (uploads db1).

Definition posted_jobs (db : Db) (u : User.t) : list Job.t :=
  filter (fun j => Job.posted_by_id j =? User.id u) (jobs db).

Definition user_applications (db : Db) (u : User.t) : list Application.t :=
  filter (fun a => Application.applicant_id a =? User.id u) (applications db).

Definition session_delete_user (db : Db) (u : User.t) : Db :=
  let db1 := fold_left session_delete_job (posted_jobs db u) db in
  let db2 := fold_left delete_application_row (user_applications db u) db1 in
  mkDb (filter (fun v => negb (User.id v =? User.id u)) (users db2))
       (jobs db2) (applications db2) (uploads db2).

(* ================================================================== *)
(** ** Requests and responses *)
(* ================================================================== *)

Inductive http_method := GET | POST.

(** [request.args], [request.form]: field name to value;
    [request.files]: field name to the uploaded file's name. *)
Definition fields := list (string * text).

Fixpoint get (f : fields) (k : string) : option text :=
  match f with
  | [] => None
  | (k', v) :: f' => if String.eqb k' k then Some v else get f' k
  end.

Definition get_or (f : fields) (k : string) (default : text) : text :=
  match get f k with Some v => v | None => default end.

Record Request := mkRequest {
  method : http_method;
  args : fields;
  form : fields;
  files : fields;
  now : Z
}.

(** The session cookie: the id of the logged-in user, if any. *)
Definition session := option Z.

(** [current_user]: [load_user] looks the cookie's id up in the user
    table; [None] is the anonymous user. *)
Definition current_user (db : Db) (s : session) : option User.t :=
  match s with
  | Some uid => get_user db uid
  | None => None
  end.

Inductive endpoint :=
| index_ep | register_ep | login_ep | create_job_ep
| job_detail_ep (job_id : Z) | apply_ep (job_id : Z)
| admin_users_ep | admin_jobs_ep.

(** The messages the handlers flash. *)
Inductive flash :=
| fill_required          (* "Please fill all the required fields." *)
| passwords_differ       (* "Passwords do not match." *)
| email_registered       (* "Email already registered. Please log in." *)
| registered             (* "Registered and Logged in successfully." *)
| only_employers         (* "Only employers can post jobs. ..." *)
| fill_title_company_description
                         (* "Please fill Title, Company and Description." *)
| job_posted             (* "Job posted successfully." *)
| already_applied        (* "You have already applied to this job." *)
| invalid_resume         (* "Invalid resume format. Allowed: pdf, doc, docx" *)
| application_submitted  (* "Application submitted. Good luck!" *)
| edit_not_allowed       (* "You are not allowed to edit this job." *)
| job_updated            (* "Job updated." *)
| delete_not_allowed     (* "You are not allowed to delete this job." *)
| job_deleted            (* "Job Deleted." / "Job deleted." *)
| own_account            (* "you cannot delete your own admin account." *)
| user_deleted.          (* "User deleted" *)

Inductive response :=
| Render (template : string)
| Redirect (message : option flash) (target : endpoint)
| Abort (status : Z)
| LoginRequired        (* what @login_required answers to the anonymous user *)
| ServerError.         (* an uncaught Python exception *)

(** The error taxonomy of the specification (section 7), read off the
    response. *)
Inductive outcome :=
| Success | ValidationError | Unauthorized | Forbidden | NotFound | Conflict
| Failure.

Definition outcome_of (r : response) : outcome :=
  match r with
  | Render _ => Success
  | Redirect None _ => Success
  | Redirect (Some m) _ =>
      match m with
      | fill_required | passwords_differ
      | fill_title_company_description | invalid_resume => ValidationError
      | email_registered | already_applied | own_account => Conflict
      | only_employers | edit_not_allowed | delete_not_allowed => Forbidden
      | registered | job_posted | application_submitted
      | job_updated | job_deleted | user_deleted => Success
      end
  | Abort status =>
      if status =? 403 then Forbidden
      else if status =? 404 then NotFound else Failure
  | LoginRequired => Unauthorized
  | ServerError => Failure
  end.

(* ================================================================== *)
(** ** Helpers and routes *)
(* ================================================================== *)

Definition ALLOWED_EXTENSIONS : list text := [str "pdf"; str "doc"; str "docx"].

Definition allowed_file (filename : text) : bool :=
  match rsplit_dot filename with
  | Some ext => existsb (text_eqb (py_lower ext)) ALLOWED_EXTENSIONS
  | None => false
  end.

Definition is_empty (s : text) : bool :=
  match s with [] => true | _ :: _ => false end.

(** [order_by(Job.created_at.desc())].  SQL leaves the order of rows
    with equal keys open; the model keeps them in table order. *)
Fixpoint insert_desc (j : Job.t) (l : list Job.t) : list Job.t :=
  match l with
  | [] => [j]
  | k :: t =>
      if Job.created_at j <? Job.created_at k
      then k :: insert_desc j t
      else j :: l
  end.

Definition order_by_created_at_desc (l : list Job.t) : list Job.t :=
  fold_right insert_desc [] l.

(** The filter that [index] builds from the query parameters. *)
Definition index_filter (q company location job_type : text) (j : Job.t)
  : bool :=
  ((if is_empty q then true
    else let q_like := (str "%" ++ q ++ str "%")%list in
         ilike (Job.job_title j) q_like || ilike (Job.description j) q_like)
   && (if is_empty company then true else lower_eq (Job.company j) company)
   && (if is_empty location then true else lower_eq (Job.location j) location)
   && (if is_empty job_type then true else lower_eq (Job.job_type j) job_type)
  )%bool.

(** What [index] hands to its template. *)
Record IndexPage := mkIndexPage {
  page_jobs : list Job.t;
  page_companies : list text;
  page_job_types : list text
}.

Definition index (db : Db) (req : Request) : IndexPage :=
  let q := strip (get_or (args req) "q" []) in
  let company := strip (get_or (args req) "company" []) in
  let location := strip (get_or (args req) "location" []) in
  let job_type := strip (get_or (args req) "job_type" []) in
  let jobs' :=
    order_by_created_at_desc
      (filter (index_filter q company location job_type) (jobs db)) in
  mkIndexPage jobs'
    (nodup (list_eq_dec ascii_dec) (map Job.company (jobs db)))
    (nodup (list_eq_dec ascii_dec) (map Job.job_type (jobs db))).

Section Portal.

(** [werkzeug.security.generate_password_hash] and
    [werkzeug.utils.secure_filename]. *)
Variable generate_password_hash : text -> text.
Variable secure_filename : text -> text.

(* ------------------------------------------------------------------ *)
(** *** Create DB and default admin *)

(** The block run at start-up: [ADMIN_EMAIL] and [ADMIN_PWD] come from
    the environment, with the defaults "admin@gmail.com" and
    "Admin@123". *)
Definition bootstrap (ADMIN_EMAIL ADMIN_PWD : text) (started_at : Z) (db : Db)
  : Db :=
  match find (fun u => text_eqb (User.email u) ADMIN_EMAIL) (users db) with
  | None =>
      let admin :=
        User.mk (next_id (map User.id (users db)))
                (str "Site Admin") ADMIN_EMAIL
                (generate_password_hash ADMIN_PWD) true true started_at in
      mkDb (users db ++ [admin]) (jobs db) (applications db) (uploads db)
  | Some admin =>
      (* ensure flags are set *)
      mkDb (map (fun u =>
                   if User.id u =? User.id admin
                   then User.mk (User.id u) (User.fullname u) (User.email u)
                                (User.password_hash u) true true
                                (User.created_at u)
                   else u)
                (users db))
           (jobs db) (applications db) (uploads db)
  end.

(* ------------------------------------------------------------------ *)
(** *** Auth *)

Definition register (db : Db) (s : session) (req : Request)
  : response * Db * session :=
  match current_user db s with
  | Some _ => (Redirect None index_ep, db, s)
  | None =>
      match method req with
      | GET => (Render "register.html", db, s)
      | POST =>
          let fullname := strip (get_or (form req) "fullname" []) in
          match get (form req) "email" with
          | None => (ServerError, db, s)   (* None has no strip() *)
          | Some e =>
              let email := py_lower (strip e) in
              let password := get_or (form req) "password" [] in
              let confirm := get_or (form req) "confirm" [] in
              if (is_empty fullname || is_empty email
                  || is_empty password || is_empty confirm)%bool
              then (Redirect (Some fill_required) register_ep, db, s)
              else if negb (text_eqb password confirm)
              then (Redirect (Some passwords_differ) register_ep, db, s)
              else
                let is_employer_flag :=
                  match get (form req) "is_employer" with
                  | Some v => text_eqb v (str "on")
                  | None => false
                  end in
                match find (fun u => text_eqb (User.email u) email) (users db)
                with
                | Some _ => (Redirect (Some email_registered) login_ep, db, s)
                | None =>
                    (* no stored email equals [email] here, so the
                       UNIQUE constraint of the column holds at commit *)
                    let user :=
                      User.mk (next_id (map User.id (users db)))
                              fullname email
                              (generate_password_hash password)
                              false is_employer_flag (now req) in
                    (Redirect (Some registered) index_ep,
                     mkDb (users db ++ [user]) (jobs db)
                          (applications db) (uploads db),
                     Some (User.id user))
                end
          end
      end
  end.

(* ------------------------------------------------------------------ *)
(** *** Job CRUD *)

Definition create_job (db : Db) (s : session) (req : Request)
  : response * Db :=
  match current_user db s with
  | None => (LoginRequired, db)
  | Some cu =>
      if negb (User.is_employer cu || User.is_admin cu)
      then (Redirect (Some only_employers) index_ep, db)
      else
        match method req with
        | POST =>
            let title := strip (get_or (form req) "job_title" []) in
            let company := strip (get_or (form req) "company" []) in
            let salary := strip (get_or (form req) "salary" []) in
            let description := strip (get_or (form req) "description" []) in
            let location := strip (get_or (form req) "location" []) in
            let job_type := strip (get_or (form req) "job_type" []) in
            if (is_empty title || is_empty company || is_empty description)%bool
            then (Redirect (Some fill_title_company_description)
                           create_job_ep, db)
            else
              let job :=
                Job.mk (next_id (map Job.id (jobs db)))
                       title company salary description location job_type
                       (now req) (User.id cu) in
              (Redirect (Some job_posted) (job_detail_ep (Job.id job)),
               mkDb (users db) (jobs db ++ [job])
                    (applications db) (uploads db))
        | GET => (Render "create_job.html", db)
        end
  end.

(* ------------------------------------------------------------------ *)
(** *** Apply *)

(** [now req] is the clock reading that names the upload; the row's
    [created_at] default reads the clock again at the insert. *)
Definition apply (db : Db) (s : session) (job_id : Z) (req : Request)
  (inserted_at : Z) : response * Db :=
  match current_user db s with
  | None => (LoginRequired, db)
  | Some cu =>
      match get_job db job_id with
      | None => (Abort 404, db)
      | Some job =>
          match applications_of db (Job.id job) (User.id cu) with
          | _ :: _ =>
              (Redirect (Some already_applied) (job_detail_ep (Job.id job)),
               db)
          | [] =>
              match method req with
              | POST =>
                  let cover_letter :=
                    strip (get_or (form req) "cover_letter" []) in
                  let submit (resume_filename : option text)
                             (saved : list text) :=
                    let application :=
                      Application.mk
                        (next_id (map Application.id (applications db)))
                        (User.id cu) (Job.id job) cover_letter
                        resume_filename inserted_at in
                    (Redirect (Some application_submitted)
                              (job_detail_ep (Job.id job)),
                     mkDb (users db) (jobs db)
                          (applications db ++ [application]) saved) in
                  match get (files req) "resume" with
                  | Some (c :: n) =>
                      let filename := c :: n in
                      if allowed_file filename then
                        let fname :=
                          secure_filename
                            (py_str_int (User.id cu) ++ str "_"
                             ++ py_str_int (Z.quot (now req) 1000000)
                             ++ str "_" ++ filename)%list in
                        submit (Some fname) (fname :: uploads db)
                      else
                        (Redirect (Some invalid_resume)
                                  (apply_ep (Job.id job)), db)
                  | _ => submit None (uploads db)
                  end
              | GET => (Render "apply.html", db)
              end
          end
      end
  end.

(* ------------------------------------------------------------------ *)
(** *** Edit and delete (job poster or admin) *)

Definition edit_job (db : Db) (s : session) (job_id : Z) (req : Request)
  : response * Db :=
  match current_user db s with
  | None => (LoginRequired, db)
  | Some cu =>
      match get_job db job_id with
      | None => (Abort 404, db)
      | Some job =>
          if (negb (Job.posted_by_id job =? User.id cu)
              && negb (User.is_admin cu))%bool
          then (Redirect (Some edit_not_allowed) (job_detail_ep (Job.id job)),
                db)
          else
            match method req with
            | POST =>
                let job' :=
                  Job.mk (Job.id job)
                    (strip (get_or (form req) "job_title" (Job.job_title job)))
                    (strip (get_or (form req) "company" (Job.company job)))
                    (strip (get_or (form req) "salary" (Job.salary job)))
                    (strip (get_or (form req) "description"
                                   (Job.description job)))
                    (strip (get_or (form req) "location" (Job.location job)))
                    (strip (get_or (form req) "job_type" (Job.job_type job)))
                    (Job.created_at job) (Job.posted_by_id job) in
                (Redirect (Some job_updated) (job_detail_ep (Job.id job)),
                 mkDb (users db)
                      (map (fun k => if Job.id k =? Job.id job then job'
                                     else k) (jobs db))
                      (applications db) (uploads db))
            | GET => (Render "edit_job.html", db)
            end
      end
  end.

Definition delete_job (db : Db) (s : session) (job_id : Z) : response * Db :=
  match current_user db s with
  | None => (LoginRequired, db)
  | Some cu =>
      match get_job db job_id with
      | None => (Abort 404, db)
      | Some job =>
          if (negb (Job.posted_by_id job =? User.id cu)
              && negb (User.is_admin cu))%bool
          then (Redirect (Some delete_not_allowed)
                         (job_detail_ep (Job.id job)), db)
          else (Redirect (Some job_deleted) index_ep,
                session_delete_job db job)
      end
  end.

(* ------------------------------------------------------------------ *)
(** *** Admin *)

(** [@login_required] above [@admin_required]. *)
Definition admin_delete_user (db : Db) (s : session) (user_id : Z)
  : response * Db :=
  match current_user db s with
  | None => (LoginRequired, db)
  | Some cu =>
      if negb (User.is_admin cu) then (Abort 403, db)
      else
        match get_user db user_id with
        | None => (Abort 404, db)
        | Some user =>
            if User.id user =? User.id cu
            then (Redirect (Some own_account) admin_users_ep, db)
            else (Redirect (Some user_deleted) admin_users_ep,
                  session_delete_user db user)
        end
  end.

Definition admin_delete_job (db : Db) (s : session) (job_id : Z)
  : response * Db :=
  match current_user db s with
  | None => (LoginRequired, db)
  | Some cu =>
      if negb (User.is_admin cu) then (Abort 403, db)
      else
        match get_job db job_id with
        | None => (Abort 404, db)
        | Some job =>
            (Redirect (Some job_deleted) admin_jobs_ep,
             session_delete_job db job)
        end
  end.

End Portal.

(* ================================================================== *)
(** ** Session routes and the routes that only read *)
(* ================================================================== *)

(** The messages of [login] and [logout]. *)
Inductive auth_flash :=
| logged_in            (* "Logged in Successfully." *)
| invalid_credentials  (* "Invalid credentials." *)
| logged_out.          (* "Logged Out." *)

(** Their answers; [RedirectNext] is the redirect to the URL that the
    query parameter [next] carries. *)
Inductive auth_response :=
| AuthRender (template : string)
| AuthRedirect (message : option auth_flash) (target : endpoint)
| RedirectNext (message : option auth_flash) (url : text)
| AuthLoginRequired.

Section Sessions.

(** [werkzeug.security.check_password_hash]. *)
Variable check_password_hash : text -> text -> bool.

Definition login (db : Db) (s : session) (req : Request)
  : auth_response * session :=
  match current_user db s with
  | Some _ => (AuthRedirect None index_ep, s)
  | None =>
      match method req with
      | POST =>
          let email := py_lower (strip (get_or (form req) "email" [])) in
          let password := get_or (form req) "password" [] in
          match find (fun u => text_eqb (User.email u) email) (users db) with
          | Some user =>
              if check_password_hash (User.password_hash user) password
              then
                (match get (args req) "next" with
                 | Some (c :: n) => RedirectNext (Some logged_in) (c :: n)
                 | _ => AuthRedirect (Some logged_in) index_ep
                 end,
                 Some (User.id user))
              else (AuthRedirect (Some invalid_credentials) login_ep, s)
          | None => (AuthRedirect (Some invalid_credentials) login_ep, s)
          end
      | GET => (AuthRender "login.html", s)
      end
  end.

Definition logout (db : Db) (s : session) : auth_response * session :=
  match current_user db s with
  | None => (AuthLoginRequired, s)
  | Some _ => (AuthRedirect (Some logged_out) index_ep, None)
  end.

End Sessions.

(** What [job_detail] hands to its template. *)
Record JobDetailPage := mkJobDetailPage {
  detail_job : Job.t;
  detail_applied : bool
}.

Definition job_detail (db : Db) (s : session) (job_id : Z)
  : response + JobDetailPage :=
  match get_job db job_id with
  | None => inl (Abort 404)
  | Some job =>
      let applied :=
        match current_user db s with
        | Some cu =>
            match applications_of db (Job.id job) (User.id cu) with
            | _ :: _ => true
            | [] => false
            end
        | None => false
        end in
      inr (mkJobDetailPage job applied)
  end.

(** [send_from_directory] serves a file of the upload folder by its
    name and answers 404 when there is none. *)
Definition uploaded_resume (db : Db) (s : session) (filename : text)
  : response + text :=
  match current_user db s with
  | None => inl LoginRequired
  | Some _ =>
      if existsb (text_eqb filename) (uploads db)
      then inr filename else inl (Abort 404)
  end.

(** [order_by(X.created_at.desc())] for the other tables. *)
Fixpoint insert_by_desc {A : Type} (key : A -> Z) (x : A) (l : list A)
  : list A :=
  match l with
  | [] => [x]
  | y :: t =>
      if key x <? key y then y :: insert_by_desc key x t else x :: l
  end.

Definition order_by_desc {A : Type} (key : A -> Z) (l : list A) : list A :=
  fold_right (insert_by_desc key) [] l.

Record DashboardPage := mkDashboardPage {
  my_jobs : list Job.t;
  my_applications : list Application.t
}.

Definition dashboard (db : Db) (s : session) : response + DashboardPage :=
  match current_user db s with
  | None => inl LoginRequired
  | Some cu =>
      inr (mkDashboardPage
             (order_by_created_at_desc (posted_jobs db cu))
             (order_by_desc Application.created_at (user_applications db cu)))
  end.

(** The admin console: the counts of [admin_index], the lists of
    [admin_users] and [admin_jobs]. *)
Definition admin_gate {A : Type} (db : Db) (s : session) (page : A)
  : response + A :=
  match current_user db s with
  | None => inl LoginRequired
  | Some cu => if negb (User.is_admin cu) then inl (Abort 403) else inr page
  end.

Definition admin_index (db : Db) (s : session) : response + (Z * Z) :=
  admin_gate db s
    (Z.of_nat (List.length (users db)), Z.of_nat (List.length (jobs db))).

Definition admin_users (db : Db) (s : session) : response + list User.t :=
  admin_gate db s (order_by_desc User.created_at (users db)).

Definition admin_jobs (db : Db) (s : session) : response + list Job.t :=
  admin_gate db s (order_by_created_at_desc (jobs db)).

(* ================================================================== *)
(** ** The application as a state machine *)
(* ================================================================== *)

(** One start of the process or one request to a route that writes. *)
Inductive action :=
| start (ADMIN_EMAIL ADMIN_PWD : text) (started_at : Z)
| do_register (s : session) (req : Request)
| do_create_job (s : session) (req : Request)
| do_apply (s : session) (job_id : Z) (req : Request) (inserted_at : Z)
| do_edit_job (s : session) (job_id : Z) (req : Request)
| do_delete_job (s : session) (job_id : Z)
| do_admin_delete_user (s : session) (user_id : Z)
| do_admin_delete_job (s : session) (job_id : Z).

Section Machine.

Variable generate_password_hash : text -> text.
Variable secure_filename : text -> text.

Definition run (db : Db) (a : action) : Db :=
  match a with
  | start mail pwd t => bootstrap generate_password_hash mail pwd t db
  | do_register s req => snd (fst (register generate_password_hash db s req))
  | do_create_job s req => snd (create_job db s req)
  | do_apply s j req t => snd (apply secure_filename db s j req t)
  | do_edit_job s j req => snd (edit_job db s j req)
  | do_delete_job s j => snd (delete_job db s j)
  | do_admin_delete_user s u => snd (admin_delete_user db s u)
  | do_admin_delete_job s j => snd (admin_delete_job db s j)
  end.

(** [db.create_all()] on a new database file: three empty tables. *)
Definition empty_db : Db := mkDb [] [] [] [].

(** The databases the application can get into. *)
Inductive reachable : Db -> Prop :=
| reachable_empty : reachable empty_db
| reachable_run (db : Db) (a : action) :
    reachable db -> reachable (run db a).

End Machine.

(* ================================================================== *)
(** ** Vocabulary of the properties *)
(* ================================================================== *)

(** Primary keys are unique. *)
Definition keys_unique (db : Db) : Prop :=
  NoDup (map User.id (users db))
  /\ NoDup (map Job.id (jobs db))
  /\ NoDup (map Application.id (applications db)).

(** The invariant of a Job: title, company and description non-empty. *)
Definition fields_nonempty (j : Job.t) : Prop :=
  Job.job_title j <> [] /\ Job.company j <> [] /\ Job.description j <> [].

Definition jobs_valid (db : Db) : Prop := Forall fields_nonempty (jobs db).

(** Orders on creation time: newest first, with and without ties. *)
Definition newest_first (l : list Job.t) : Prop :=
  StronglySorted (fun a b => Job.created_at b <= Job.created_at a) l.

Definition strictly_newest_first (l : list Job.t) : Prop :=
  StronglySorted (fun a b => Job.created_at b < Job.created_at a) l.

(** A listing request without any of the four filters. *)
Definition no_filters (req : Request) : Prop :=
  get (args req) "q" = None /\ get (args req) "company" = None
  /\ get (args req) "location" = None /\ get (args req) "job_type" = None.




(** The filter of [listJobs] in the words of the specification: the
    free text is a substring of the title or of the description, and
    company, location and job type are equal to the filter, all without
    regard to the case of the letters A..Z; an absent filter ([None])
    does not constrain. *)
Definition contains_ci (needle hay : text) : bool :=
  infixb (sql_lower needle) (sql_lower hay).




(** A registration form that passes the field checks of [register]. *)
Definition registration_filled (req : Request) (e : text) : Prop :=
  method req = POST
  /\ get (form req) "email" = Some e
  /\ strip (get_or (form req) "fullname" []) <> []
  /\ py_lower (strip e) <> []
  /\ get_or (form req) "password" [] <> []
  /\ get_or (form req) "confirm" [] = get_or (form req) "password" [].

(** Every stored email is in lower case. *)
Definition emails_lower (db : Db) : Prop :=
  Forall (fun u => py_lower (User.email u) = User.email u) (users db).

(** Number of applications of user [uid] to job [jid]. *)
Definition application_count (db : Db) (jid uid : Z) : nat :=
  List.length (applications_of db jid uid).

(* ------------------------------------------------------------------ *)
(** *** Sample data *)

Module Sample.

Definition hash (pwd : text) : text := (str "hash:" ++ pwd)%list.
Definition secure (name : text) : text := name.

Definition site_admin : User.t :=
  User.mk 1 (str "Site Admin") (str "admin@gmail.com") (hash (str "Admin@123"))
          true true 0.
Definition alice : User.t :=
  User.mk 2 (str "Alice") (str "alice@x.com") (hash (str "pw-a"))
          false true 100.
Definition bob : User.t :=
  User.mk 3 (str "Bob") (str "bob@x.com") (hash (str "pw-b"))
          false false 200.

Definition backend : Job.t :=
  Job.mk 1 (str "Backend Engineer") (str "Acme") (str "") (str "Build APIs")
         (str "Pune") (str "Full-time") 300 2.
Definition frontend : Job.t :=
  Job.mk 2 (str "Frontend Engineer") (str "Acme") (str "") (str "Build UIs")
         (str "Pune") (str "Full-time") 300 2.

Definition bob_backend : Application.t :=
  Application.mk 1 3 1 (str "Hi") None 400.

Definition db_users : Db := mkDb [site_admin; alice; bob] [] [] [].
Definition db_one_job : Db := mkDb [site_admin; alice; bob] [backend] [] [].
Definition db_two_jobs : Db :=
  mkDb [site_admin; alice; bob] [backend; frontend] [] [].
Definition db_applied : Db :=
  mkDb [site_admin; alice; bob] [backend] [bob_backend] [].

Definition get_request (a : fields) : Request := mkRequest GET a [] [] 500.
Definition post_request (f files : fields) : Request :=
  mkRequest POST [] f files 500.

Definition registration (name mail pwd confirm : string) : Request :=
  post_request [("fullname"%string, str name); ("email"%string, str mail);
                ("password"%string, str pwd); ("confirm"%string, str confirm)]
               [].

Definition carol : User.t :=
  User.mk 4 (str "Carol") (str "carol@x.com") (hash (str "pw-c"))
          false false 500.
Definition db_carol : Db := mkDb [site_admin; alice; bob; carol] [] [] [].

End Sample.

(* ------------------------------------------------------------------ *)
(** *** Invariants of the database *)

(** Foreign keys point to rows that exist. *)
Definition refs_ok (db : Db) : Prop :=
  Forall (fun j => In (Job.posted_by_id j) (map User.id (users db)))
         (jobs db)
  /\ Forall (fun a =>
               In (Application.applicant_id a) (map User.id (users db))
               /\ In (Application.job_id a) (map Job.id (jobs db)))
            (applications db).

(** No user has two applications for one job. *)
Definition one_application_per_pair (db : Db) : Prop :=
  forall jid uid, (application_count db jid uid <= 1)%nat.

(** No two users share an email. *)
Definition emails_unique (db : Db) : Prop :=
  NoDup (map User.email (users db)).

(** The resume an application refers to is a file of the upload
    folder. *)
Definition resumes_stored (db : Db) : Prop :=
  Forall (fun a => forall f, Application.resume_path a = Some f ->
                             In f (uploads db))
         (applications db).

(** The text columns of the jobs carry no surrounding white space. *)
Definition job_trimmed (j : Job.t) : Prop :=
  strip (Job.job_title j) = Job.job_title j
  /\ strip (Job.company j) = Job.company j
  /\ strip (Job.salary j) = Job.salary j
  /\ strip (Job.description j) = Job.description j
  /\ strip (Job.location j) = Job.location j
  /\ strip (Job.job_type j) = Job.job_type j.

Definition jobs_trimmed (db : Db) : Prop := Forall job_trimmed (jobs db).

(** Orders on creation time for any table. *)
Definition newest_first_by {A : Type} (key : A -> Z) (l : list A) : Prop :=
  StronglySorted (fun a b => key b <= key a) l.

(** A session route answered with the "logged in" message. *)
Definition logs_in (r : auth_response) : bool :=
  match r with
  | AuthRedirect (Some logged_in) _ | RedirectNext (Some logged_in) _ => true
  | _ => false
  end.

(* ------------------------------------------------------------------ *)
(** *** A sample history *)

Module Story.

Import Sample.

Definition check (h pwd : text) : bool := text_eqb h (hash pwd).

Definition employer_form : Request :=
  post_request [("fullname"%string, str "Alice");
                ("email"%string, str " Alice@X.com ");
                ("password"%string, str "pw-a");
                ("confirm"%string, str "pw-a");
                ("is_employer"%string, str "on")] [].

Definition job_form : Request :=
  post_request [("job_title"%string, str " Backend Engineer ");
                ("company"%string, str "Acme");
                ("description"%string, str "Build APIs")] [].

Definition application_form : Request :=
  post_request [("cover_letter"%string, str "Hi")]
               [("resume"%string, str "cv.pdf")].

Definition history : list action :=
  [start (str "admin@gmail.com") (str "Admin@123") 0;
   do_register None employer_form;
   do_create_job (Some 2) job_form;
   do_register None (registration "Bob" "bob@x.com" "pw-b" "pw-b");
   do_apply (Some 3) 1 application_form 600].

Definition db_after : Db := fold_left (run hash secure) history empty_db.

(** The database after a first start with ADMIN_EMAIL=Admin@X.com. *)
Definition db_mixed_case_admin : Db :=
  bootstrap hash (str "Admin@X.com") (str "Admin@123") 0 empty_db.

End Story.

(* ================================================================== *)
(** ** Facts about texts *)
(* ================================================================== *)

Section TextFacts.

Lemma text_eqb_eq (a b : text) : text_eqb a b = true <-> a = b.
Proof.
  unfold text_eqb. destruct (list_eq_dec ascii_dec a b); split; congruence.
Qed.

Lemma text_eqb_refl (a : text) : text_eqb a a = true.
Proof. now apply text_eqb_eq. Qed.

Lemma text_eqb_neq (a b : text) : text_eqb a b = false <-> a <> b.
Proof.
  unfold text_eqb. destruct (list_eq_dec ascii_dec a b); split; congruence.
Qed.

Lemma is_empty_nil (s : text) : is_empty s = true <-> s = [].
Proof. destruct s; simpl; split; congruence. Qed.

Lemma is_empty_false (s : text) : is_empty s = false <-> s <> [].
Proof. destruct s; simpl; split; congruence. Qed.

(** Case analysis over the 256 characters. *)
Ltac each_char c :=
  destruct c as [[] [] [] [] [] [] [] []]; vm_compute; try reflexivity.

Lemma py_lower_char_idem (c : ascii) :
  py_lower_char (py_lower_char c) = py_lower_char c.
Proof. each_char c. Qed.

Lemma py_lower_idem (s : text) : py_lower (py_lower s) = py_lower s.
Proof.
  unfold py_lower. rewrite map_map.
  apply map_ext. exact py_lower_char_idem.
Qed.





(** *** The part after the last dot *)

Lemma rsplit_dot_no_dot (s : text) :
  ~ In "."%char s -> rsplit_dot s = None.
Proof.
  induction s as [| c t IH]; simpl; intros H; [reflexivity|].
  rewrite IH by tauto.
  destruct (Ascii.eqb_spec c "."%char) as [->|]; [tauto | reflexivity].
Qed.

Lemma rsplit_dot_app (stem ext : text) :
  ~ In "."%char ext -> rsplit_dot (stem ++ "."%char :: ext) = Some ext.
Proof.
  intros H. induction stem as [| c t IH]; simpl.
  - now rewrite rsplit_dot_no_dot.
  - now rewrite IH.
Qed.

Lemma rsplit_dot_Some (s ext : text) :
  rsplit_dot s = Some ext ->
  exists stem, s = (stem ++ "."%char :: ext)%list /\ ~ In "."%char ext.
Proof.
  revert ext. induction s as [| c t IH]; simpl; intros ext H; [discriminate|].
  destruct (rsplit_dot t) as [e|] eqn:E.
  - injection H as <-. destruct (IH e eq_refl) as (stem & -> & Hn).
    now exists (c :: stem).
  - destruct (Ascii.eqb_spec c "."%char) as [->|]; [|discriminate].
    injection H as <-. exists []. split; [reflexivity|].
    intros Hin. revert E. clear IH.
    induction t as [| d u IHu]; simpl in *; [tauto|].
    destruct (rsplit_dot u); [discriminate|].
    destruct (Ascii.eqb_spec d "."%char) as [->|Hd]; [discriminate|].
    intros _. destruct Hin as [Hin|Hin]; [congruence|]. now apply IHu.
Qed.

Lemma rsplit_dot_None (s : text) :
  rsplit_dot s = None -> ~ In "."%char s.
Proof.
  induction s as [| c t IH]; simpl; [tauto|].
  destruct (rsplit_dot t); [discriminate|].
  destruct (Ascii.eqb_spec c "."%char) as [->|Hc]; [discriminate|].
  intros _ [H|H]; [congruence | now apply IH].
Qed.

(** *** LIKE against a pattern without wildcards *)











Lemma prefixb_spec (p s : text) :
  prefixb p s = true <-> exists post, s = (p ++ post)%list.
Proof.
  revert s. induction p as [| c p IH]; intros s; simpl.
  - split; [intros _; now exists s | reflexivity].
  - destruct s as [| d s]; simpl.
    + split; [discriminate | intros (post & H); discriminate].
    + rewrite andb_true_iff, IH, Ascii.eqb_eq. split.
      * intros (-> & post & ->). now exists post.
      * intros (post & H). injection H as -> ->. split; [reflexivity|].
        now exists post.
Qed.

Lemma infixb_spec (p s : text) :
  infixb p s = true <-> exists pre post, s = (pre ++ p ++ post)%list.
Proof.
  induction s as [| d s IH]; simpl; rewrite orb_true_iff, prefixb_spec.
  - split.
    + intros [(post & H)|H]; [|discriminate]. now exists [], post.
    + intros (pre & post & H). left. destruct pre; [|discriminate].
      now exists post.
  - rewrite IH. split.
    + intros [(post & H)|(pre & post & ->)].
      * now exists [], post.
      * now exists (d :: pre), post.
    + intros (pre & post & H). destruct pre as [| e pre].
      * left. now exists post.
      * right. injection H as -> ->. now exists pre, post.
Qed.

End TextFacts.

(* ================================================================== *)
(** ** Facts about tables *)
(* ================================================================== *)

Section Tables.

Context {A : Type} (key : A -> Z).

Lemma filter_all (l : list A) : filter (fun _ => true) l = l.
Proof. induction l; simpl; congruence. Qed.

Lemma filter_filter (f g : A -> bool) (l : list A) :
  filter f (filter g l) = filter (fun x => (g x && f x)%bool) l.
Proof.
  induction l as [| x l IH]; simpl; [reflexivity|].
  destruct (g x); simpl; [destruct (f x)|]; now rewrite IH.
Qed.

Lemma key_unique (l : list A) (a b : A) :
  NoDup (map key l) -> In a l -> In b l -> key a = key b -> a = b.
Proof.
  induction l as [| x l IH]; simpl; [tauto|].
  intros Hnd Ha Hb Hk. inversion Hnd as [| ? ? Hx Hl]; subst.
  destruct Ha as [->|Ha], Hb as [->|Hb]; auto.
  - exfalso. apply Hx. rewrite Hk. now apply in_map.
  - exfalso. apply Hx. rewrite <- Hk. now apply in_map.
Qed.

Lemma NoDup_map_filter (p : A -> bool) (l : list A) :
  NoDup (map key l) -> NoDup (map key (filter p l)).
Proof.
  induction l as [| x l IH]; simpl; intros Hnd; [constructor|].
  inversion Hnd as [| ? ? Hx Hl]; subst.
  destruct (p x); simpl; [constructor|]; auto.
  intros H. apply Hx. apply in_map_iff in H. destruct H as (y & Hy & Hin).
  apply filter_In in Hin. rewrite <- Hy. apply in_map. tauto.
Qed.

(** Selecting rows by a predicate and then removing the rows that carry
    the selected keys removes exactly the selected rows. *)
Lemma selected_keys (p : A -> bool) (l : list A) (b : A) :
  NoDup (map key l) -> In b l ->
  existsb (fun a => key b =? key a) (filter p l) = p b.
Proof.
  intros Hnd Hb. destruct (p b) eqn:Hp.
  - apply existsb_exists. exists b. split; [|apply Z.eqb_refl].
    apply filter_In. tauto.
  - apply not_true_is_false. intros H. apply existsb_exists in H.
    destruct H as (a & Ha & Hk). apply filter_In in Ha. destruct Ha as [Ha Hpa].
    apply Z.eqb_eq in Hk.
    assert (b = a) by (eapply key_unique; eauto). congruence.
Qed.

Lemma find_key_In (l : list A) (k : Z) (a : A) :
  find (fun x => key x =? k) l = Some a -> In a l /\ key a = k.
Proof.
  intros H. apply find_some in H. now rewrite Z.eqb_eq in H.
Qed.

Lemma next_id_fresh (l : list A) : ~ In (next_id (map key l)) (map key l).
Proof.
  assert (H : forall ids x, In x ids -> x <= fold_right Z.max 0 ids).
  { induction ids as [| y ids IH]; simpl; [tauto|].
    intros x [->|Hx]; [lia|]. specialize (IH x Hx). lia. }
  intros Hin. apply H in Hin. unfold next_id in Hin. lia.
Qed.

End Tables.

Section Cascade.

Lemma delete_rows (l : list Application.t) (db : Db) :
  fold_left delete_application_row l db =
  mkDb (users db) (jobs db)
       (filter (fun b => negb (existsb (fun a => Application.id b
                                                 =? Application.id a) l))
               (applications db))
       (uploads db).
Proof.
  revert db. induction l as [| a l IH]; intros db; simpl.
  - rewrite filter_all. now destruct db.
  - rewrite IH. simpl. rewrite filter_filter. f_equal.
    apply filter_ext. intros b. now rewrite negb_orb.
Qed.

Lemma session_delete_job_eq (db : Db) (j : Job.t) :
  NoDup (map Application.id (applications db)) ->
  session_delete_job db j =
  mkDb (users db)
       (filter (fun k => negb (Job.id k =? Job.id j)) (jobs db))
       (filter (fun a => negb (Application.job_id a =? Job.id j))
               (applications db))
       (uploads db).
Proof.
  intros Hnd. unfold session_delete_job. rewrite delete_rows. simpl.
  f_equal. apply filter_ext_in. intros b Hb. unfold job_applications.
  now rewrite (selected_keys Application.id) by assumption.
Qed.

Lemma delete_jobs (js : list Job.t) (db : Db) :
  NoDup (map Application.id (applications db)) ->
  fold_left session_delete_job js db =
  mkDb (users db)
       (filter (fun k => negb (existsb (fun j => Job.id k =? Job.id j) js))
               (jobs db))
       (filter (fun a => negb (existsb (fun j => Application.job_id a
                                                 =? Job.id j) js))
               (applications db))
       (uploads db).
Proof.
  revert db. induction js as [| j js IH]; intros db Hnd; simpl.
  - rewrite !filter_all. now destruct db.
  - rewrite session_delete_job_eq by assumption.
    rewrite IH by (simpl; now apply NoDup_map_filter).
    simpl. rewrite !filter_filter. f_equal;
      apply filter_ext; intros x; now rewrite negb_orb.
Qed.

Lemma session_delete_user_eq (db : Db) (u : User.t) :
  keys_unique db ->
  session_delete_user db u =
  mkDb (filter (fun v => negb (User.id v =? User.id u)) (users db))
       (filter (fun k => negb (Job.posted_by_id k =? User.id u)) (jobs db))
       (filter (fun a =>
                  (negb (Application.applicant_id a =? User.id u)
                   && negb (existsb (fun j =>
                                (Job.id j =? Application.job_id a)
                                && (Job.posted_by_id j =? User.id u))
                              (jobs db)))%bool)
               (applications db))
       (uploads db).
Proof.
  intros (_ & Hj & Ha). unfold session_delete_user.
  rewrite delete_jobs by assumption. rewrite delete_rows. simpl.
  f_equal.
  - apply filter_ext_in. intros k Hk. unfold posted_jobs.
    now rewrite (selected_keys Job.id) by assumption.
  - rewrite filter_filter. apply filter_ext_in. intros a Hin.
    unfold user_applications.
    rewrite (selected_keys Application.id) by assumption.
    rewrite andb_comm. f_equal. f_equal. unfold posted_jobs.
    clear. induction (jobs db) as [| j l IH]; simpl; [reflexivity|].
    destruct (Job.posted_by_id j =? User.id u); simpl.
    + rewrite IH, andb_true_r. f_equal. apply Z.eqb_sym.
    + now rewrite IH, andb_false_r.
Qed.

End Cascade.

Section Lookup.

Lemma users_delete_jobs (js : list Job.t) (db : Db) :
  users (fold_left session_delete_job js db) = users db.
Proof.
  revert db. induction js as [| j js IH]; intros db; simpl; [reflexivity|].
  rewrite IH. unfold session_delete_job. now rewrite delete_rows.
Qed.

Lemma users_session_delete_user (db : Db) (u : User.t) :
  users (session_delete_user db u) =
  filter (fun v => negb (User.id v =? User.id u)) (users db).
Proof.
  unfold session_delete_user. rewrite delete_rows. simpl.
  now rewrite users_delete_jobs.
Qed.

Lemma find_filter_other {A : Type} (p q : A -> bool) (l : list A) :
  (forall x, p x = true -> q x = true) ->
  find p (filter q l) = find p l.
Proof.
  intros H. induction l as [| x l IH]; simpl; [reflexivity|].
  destruct (p x) eqn:Hp.
  - rewrite (H x Hp). simpl. now rewrite Hp.
  - destruct (q x); simpl; [rewrite Hp|]; exact IH.
Qed.

Lemma find_filter_none {A : Type} (p q : A -> bool) (l : list A) :
  (forall x, p x = true -> q x = false) ->
  find p (filter q l) = None.
Proof.
  intros H. induction l as [| x l IH]; simpl; [reflexivity|].
  destruct (q x) eqn:Hq; simpl; [|exact IH].
  destruct (p x) eqn:Hp; [|exact IH].
  rewrite (H x Hp) in Hq. discriminate.
Qed.

Lemma current_user_id (db : Db) (s : session) (cu : User.t) :
  current_user db s = Some cu -> s = Some (User.id cu) /\ In cu (users db).
Proof.
  destruct s as [uid|]; simpl; [|discriminate].
  intros H. apply (find_key_In User.id) in H. destruct H as [Hin <-]. auto.
Qed.

Lemma get_job_id (db : Db) (jid : Z) (j : Job.t) :
  get_job db jid = Some j -> In j (jobs db) /\ Job.id j = jid.
Proof. apply (find_key_In Job.id). Qed.

Lemma get_user_id (db : Db) (uid : Z) (u : User.t) :
  get_user db uid = Some u -> In u (users db) /\ User.id u = uid.
Proof. apply (find_key_In User.id). Qed.

End Lookup.

(* ================================================================== *)
(** ** Properties of the job routes *)
(* ================================================================== *)

Section JobRoutes.

(** Creation keeps the invariant of the job table: the three required
    fields of every stored job are non-empty. *)
Lemma create_job_keeps_jobs_valid (db : Db) (s : session) (req : Request) :
  jobs_valid db -> jobs_valid (snd (create_job db s req)).
Proof.
  intros Hv. unfold create_job.
  destruct (current_user db s) as [cu|]; [|exact Hv].
  destruct (negb _); [exact Hv|].
  destruct (method req); [exact Hv|].
  destruct (is_empty (strip (get_or (form req) "job_title" []))) eqn:Ht;
    [exact Hv|].
  destruct (is_empty (strip (get_or (form req) "company" []))) eqn:Hc;
    [exact Hv|].
  destruct (is_empty (strip (get_or (form req) "description" []))) eqn:Hd;
    [exact Hv|].
  simpl. unfold jobs_valid in *. simpl. apply Forall_app. split; [exact Hv|].
  constructor; [|constructor].
  apply is_empty_false in Ht, Hc, Hd. now repeat split.
Qed.

(** C1.  The invariant "title, company and description are non-empty"
    does not survive a partial update: [edit_job] stores whatever the
    form carries, after trimming, without the check that [create_job]
    makes.  Here the poster of a valid job submits a blank title; the
    update is accepted and the stored job has an empty title. *)
Theorem edit_job_stores_blank_title :
  let req := Sample.post_request [("job_title"%string, str "  ")] [] in
  jobs_valid Sample.db_one_job
  /\ fst (edit_job Sample.db_one_job (Some 2) 1 req)
     = Redirect (Some job_updated) (job_detail_ep 1)
  /\ map Job.job_title (jobs (snd (edit_job Sample.db_one_job (Some 2) 1 req)))
     = [[]]
  /\ ~ jobs_valid (snd (edit_job Sample.db_one_job (Some 2) 1 req)).
Proof.
  cbv zeta. split; [|split; [|split]].
  - repeat constructor; discriminate.
  - reflexivity.
  - reflexivity.
  - intros H. inversion H as [| j l [Ht _] _]; subst. now apply Ht.
Qed.

(** C9.  A logged-in user with neither the employer nor the admin flag
    is turned away by [create_job] with the Forbidden message and the
    database is left as it was; a user with either flag is not turned
    away, and a filled form then stores the job under the user's id. *)
Theorem create_job_gate (db : Db) (s : session) (req : Request) (cu : User.t) :
  current_user db s = Some cu ->
  (User.is_employer cu = false -> User.is_admin cu = false ->
   create_job db s req = (Redirect (Some only_employers) index_ep, db)
   /\ outcome_of (fst (create_job db s req)) = Forbidden)
  /\
  (User.is_employer cu = true \/ User.is_admin cu = true ->
   outcome_of (fst (create_job db s req)) <> Forbidden
   /\ (method req = POST ->
       strip (get_or (form req) "job_title" []) <> [] ->
       strip (get_or (form req) "company" []) <> [] ->
       strip (get_or (form req) "description" []) <> [] ->
       exists job,
         snd (create_job db s req)
         = mkDb (users db) (jobs db ++ [job]) (applications db) (uploads db)
         /\ Job.posted_by_id job = User.id cu
         /\ Job.created_at job = now req
         /\ fst (create_job db s req)
            = Redirect (Some job_posted) (job_detail_ep (Job.id job)))).
Proof.
  intros Hcu. unfold create_job. rewrite Hcu. split.
  - intros -> ->. simpl. auto.
  - intros Hflag.
    assert (Hg : negb (User.is_employer cu || User.is_admin cu) = false).
    { destruct Hflag as [-> | ->]; [reflexivity|].
      now rewrite orb_true_r. }
    rewrite Hg. split.
    + destruct (method req); [simpl; discriminate|].
      match goal with
      | |- context [if ?b then _ else _] => destruct b
      end; simpl; discriminate.
    + intros -> Ht Hc Hd.
      apply is_empty_false in Ht, Hc, Hd. rewrite Ht, Hc, Hd. simpl.
      eexists. repeat split.
Qed.

End JobRoutes.

(* ================================================================== *)
(** ** Properties of deletion *)
(* ================================================================== *)

Section Deletion.


(** C8.  An admin who asks for the deletion of the own account gets the
    Conflict message and the database is unchanged, so the admin's row
    is still there.  For any other user that exists the deletion goes
    ahead: the target's row is gone afterwards and the admin is still
    logged in as the same user. *)
Theorem admin_delete_user_self (db : Db) (s : session) (cu : User.t) :
  current_user db s = Some cu -> User.is_admin cu = true ->
  (admin_delete_user db s (User.id cu)
   = (Redirect (Some own_account) admin_users_ep, db)
   /\ outcome_of (fst (admin_delete_user db s (User.id cu))) = Conflict
   /\ In cu (users (snd (admin_delete_user db s (User.id cu)))))
  /\
  (forall uid u,
     get_user db uid = Some u -> uid <> User.id cu ->
     admin_delete_user db s uid
     = (Redirect (Some user_deleted) admin_users_ep, session_delete_user db u)
     /\ outcome_of (fst (admin_delete_user db s uid)) = Success
     /\ get_user (snd (admin_delete_user db s uid)) uid = None
     /\ current_user (snd (admin_delete_user db s uid)) s = Some cu).
Proof.
  intros Hcu Hadm.
  destruct (current_user_id _ _ _ Hcu) as [Hs Hin].
  assert (Hself : get_user db (User.id cu) = Some cu).
  { rewrite Hs in Hcu. exact Hcu. }
  split.
  - unfold admin_delete_user. rewrite Hcu, Hadm, Hself. simpl.
    rewrite Z.eqb_refl. simpl. auto.
  - intros uid u Hu Hne.
    destruct (get_user_id _ _ _ Hu) as [_ Hid].
    assert (Hrun : admin_delete_user db s uid
                   = (Redirect (Some user_deleted) admin_users_ep,
                      session_delete_user db u)).
    { unfold admin_delete_user. rewrite Hcu, Hadm, Hu. simpl.
      rewrite Hid. apply Z.eqb_neq in Hne. now rewrite Hne. }
    rewrite Hrun. simpl. repeat split.
    + unfold get_user. rewrite users_session_delete_user.
      apply find_filter_none. intros x Hx. rewrite Hid. now rewrite Hx.
    + rewrite Hs. simpl. unfold get_user.
      rewrite users_session_delete_user.
      rewrite find_filter_other; [exact Hself|].
      intros x Hx. apply Z.eqb_eq in Hx. rewrite Hx, Hid.
      apply negb_true_iff. apply Z.eqb_neq. congruence.
Qed.

End Deletion.

(* ================================================================== *)
(** ** Properties of registration *)
(* ================================================================== *)

Section Registration.

Variable generate_password_hash : text -> text.

(** What [register] does with a form that passes the field checks. *)
Lemma register_filled (db : Db) (s : session) (req : Request) (e : text) :
  current_user db s = None ->
  registration_filled req e ->
  register generate_password_hash db s req =
  match find (fun u => text_eqb (User.email u) (py_lower (strip e)))
             (users db) with
  | Some _ => (Redirect (Some email_registered) login_ep, db, s)
  | None =>
      let user :=
        User.mk (next_id (map User.id (users db)))
                (strip (get_or (form req) "fullname" []))
                (py_lower (strip e))
                (generate_password_hash (get_or (form req) "password" []))
                false
                match get (form req) "is_employer" with
                | Some v => text_eqb v (str "on")
                | None => false
                end
                (now req) in
      (Redirect (Some registered) index_ep,
       mkDb (users db ++ [user]) (jobs db) (applications db) (uploads db),
       Some (User.id user))
  end.
Proof.
  intros Hcu (Hm & He & Hf & Hl & Hp & Hc).
  unfold register. rewrite Hcu, Hm, He.
  apply is_empty_false in Hf, Hl. rewrite Hf, Hl.
  rewrite Hc. apply is_empty_false in Hp. rewrite Hp. simpl.
  rewrite text_eqb_refl. reflexivity.
Qed.

(** A registration is turned down when the table holds a user whose
    stored email is the lower-cased email of the form. *)
Lemma register_existing_email (db : Db) (s : session) (req : Request)
  (e : text) (u : User.t) :
  current_user db s = None ->
  registration_filled req e ->
  In u (users db) -> User.email u = py_lower (strip e) ->
  register generate_password_hash db s req
  = (Redirect (Some email_registered) login_ep, db, s).
Proof.
  intros Hcu Hreq Hin Hu. rewrite (register_filled _ _ _ e) by assumption.
  destruct (find _ (users db)) eqn:Hf; [reflexivity|].
  exfalso. apply (find_none _ _ Hf) in Hin.
  rewrite Hu, text_eqb_refl in Hin. discriminate.
Qed.

(** Registration keeps the stored emails in lower case, and in such a
    table an email that equals a stored one up to case is taken. *)
Lemma emails_lower_register (db : Db) (s : session) (req : Request) :
  emails_lower db ->
  emails_lower (snd (fst (register generate_password_hash db s req))).
Proof.
  intros Hl. unfold register.
  repeat match goal with
         | |- context [match ?x with _ => _ end] => destruct x
         end; try exact Hl;
    unfold emails_lower; simpl; apply Forall_app; (split; [exact Hl|]);
    (constructor; [simpl; apply py_lower_idem | constructor]).
Qed.

Lemma emails_lower_bootstrap (ADMIN_EMAIL ADMIN_PWD : text) (started_at : Z)
  (db : Db) :
  py_lower ADMIN_EMAIL = ADMIN_EMAIL ->
  emails_lower db ->
  emails_lower
    (bootstrap generate_password_hash ADMIN_EMAIL ADMIN_PWD started_at db).
Proof.
  intros Ha Hl. unfold bootstrap, emails_lower in *.
  destruct (find _ (users db)) as [admin|]; simpl.
  - apply Forall_map. eapply Forall_impl; [|exact Hl].
    simpl. intros u Hu. now destruct (User.id u =? User.id admin).
  - apply Forall_app. split; [exact Hl|]. now repeat constructor.
Qed.

Lemma register_taken_up_to_case (db : Db) (s : session) (req : Request)
  (e : text) (u : User.t) :
  emails_lower db ->
  current_user db s = None ->
  registration_filled req e ->
  In u (users db) -> py_lower (strip e) = py_lower (User.email u) ->
  register generate_password_hash db s req
  = (Redirect (Some email_registered) login_ep, db, s).
Proof.
  intros Hl Hcu Hreq Hin Heq.
  apply register_existing_email with (e := e) (u := u); try assumption.
  unfold emails_lower in Hl. rewrite Forall_forall in Hl.
  rewrite Heq. symmetry. now apply Hl.
Qed.

(** X27.  A registration that succeeds appends one user whose email is
    the trimmed, lower-cased email of the form, and that stored email is
    in lower case.  In the database it returns, a filled registration
    form sent by an anonymous client whose email equals the stored one
    up to case is answered with the Conflict message, and neither the
    database nor the session changes. *)
Theorem register_email_unique (db db' : Db) (s s' : session) (req : Request)
  (target : endpoint) :
  register generate_password_hash db s req
  = (Redirect (Some registered) target, db', s') ->
  exists e u,
    get (form req) "email" = Some e
    /\ db' = mkDb (users db ++ [u]) (jobs db) (applications db) (uploads db)
    /\ User.email u = py_lower (strip e)
    /\ py_lower (User.email u) = User.email u
    /\ forall req2 e2 s2,
         current_user db' s2 = None ->
         registration_filled req2 e2 ->
         py_lower (strip e2) = py_lower (User.email u) ->
         register generate_password_hash db' s2 req2
         = (Redirect (Some email_registered) login_ep, db', s2)
         /\ outcome_of (Redirect (Some email_registered) login_ep) = Conflict.
Proof.
  unfold register at 1.
  destruct (current_user db s); [discriminate|].
  destruct (method req); [discriminate|].
  destruct (get (form req) "email") as [e|]; [|discriminate].
  destruct (_ || _)%bool; [discriminate|].
  destruct (negb _); [discriminate|].
  destruct (find _ (users db)); [discriminate|].
  intros [= <- <- <-]. exists e. eexists. split; [reflexivity|].
  split; [reflexivity|]. simpl. split; [reflexivity|].
  split; [apply py_lower_idem|].
  intros req2 e2 s2 Hanon Hreq Heq. split; [|reflexivity].
  rewrite py_lower_idem in Heq.
  eapply register_existing_email; eauto.
  - simpl. apply in_or_app. right. left. reflexivity.
  - simpl. now rewrite Heq.
Qed.

(** X28.  In a user table whose stored emails are all in lower case, a
    filled registration form sent by an anonymous client whose trimmed
    email equals the email of any stored user up to case is answered
    with the Conflict message and changes nothing; and every
    registration leaves the stored emails in lower case. *)
Theorem lowercase_emails_reject_case_variants (db : Db) (s : session)
  (req : Request) :
  emails_lower db ->
  emails_lower (snd (fst (register generate_password_hash db s req)))
  /\ forall e u,
       current_user db s = None ->
       registration_filled req e ->
       In u (users db) -> py_lower (strip e) = py_lower (User.email u) ->
       register generate_password_hash db s req
       = (Redirect (Some email_registered) login_ep, db, s)
       /\ outcome_of (Redirect (Some email_registered) login_ep) = Conflict.
Proof.
  intros Hl. split; [now apply emails_lower_register|].
  intros e u Hcu Hreq Hin Heq. split; [|reflexivity].
  now apply register_taken_up_to_case with (e := e) (u := u).
Qed.

(** C10.  A registration whose password and confirmation differ never
    changes the database or the session; sent as a form by an anonymous
    client, it is answered with a ValidationError message. *)
Theorem register_passwords_differ (db : Db) (s : session) (req : Request) :
  get_or (form req) "password" [] <> get_or (form req) "confirm" [] ->
  snd (fst (register generate_password_hash db s req)) = db
  /\ snd (register generate_password_hash db s req) = s
  /\ (current_user db s = None -> method req = POST ->
      get (form req) "email" <> None ->
      outcome_of (fst (fst (register generate_password_hash db s req)))
      = ValidationError).
Proof.
  intros Hne. apply text_eqb_neq in Hne.
  unfold register.
  destruct (current_user db s); [simpl; intuition discriminate|].
  destruct (method req); [simpl; intuition discriminate|].
  destruct (get (form req) "email") as [e|]; [|simpl; intuition congruence].
  destruct (_ || _)%bool; [simpl; auto|].
  rewrite Hne. simpl. auto.
Qed.

End Registration.

(* ================================================================== *)
(** ** Properties of applying *)
(* ================================================================== *)

Section Applying.

Variable secure_filename : text -> text.

(** A user who has an application on file for the job is answered with
    the "already applied" message, whatever the request carries. *)
Lemma apply_again (db : Db) (s : session) (jid : Z) (req : Request)
  (inserted_at : Z) (cu : User.t) (job : Job.t) :
  current_user db s = Some cu -> get_job db jid = Some job ->
  applications_of db jid (User.id cu) <> [] ->
  apply secure_filename db s jid req inserted_at
  = (Redirect (Some already_applied) (job_detail_ep jid), db).
Proof.
  intros Hcu Hj Happ. unfold apply. rewrite Hcu, Hj.
  destruct (get_job_id _ _ _ Hj) as [_ ->].
  destruct (applications_of db jid (User.id cu)); [congruence | reflexivity].
Qed.

(** An application that is accepted is appended for the current user
    and the job, and the user had none for that job before. *)
Lemma apply_submitted (db db' : Db) (s : session) (jid : Z) (req : Request)
  (inserted_at : Z) (target : endpoint) :
  apply secure_filename db s jid req inserted_at
  = (Redirect (Some application_submitted) target, db') ->
  exists cu job a,
    current_user db s = Some cu /\ get_job db jid = Some job
    /\ applications_of db jid (User.id cu) = []
    /\ Application.applicant_id a = User.id cu
    /\ Application.job_id a = jid
    /\ Application.id a = next_id (map Application.id (applications db))
    /\ users db' = users db /\ jobs db' = jobs db
    /\ applications db' = applications db ++ [a].
Proof.
  unfold apply.
  destruct (current_user db s) as [cu|] eqn:Hcu; [|discriminate].
  destruct (get_job db jid) as [job|] eqn:Hj; [|discriminate].
  destruct (get_job_id _ _ _ Hj) as [_ Hid]. rewrite Hid.
  destruct (applications_of db jid (User.id cu)) eqn:Happ; [|discriminate].
  destruct (method req); [discriminate|].
  destruct (get (files req) "resume") as [[| c n]|].
  - intros [= <- <-]. exists cu, job.
    eexists (Application.mk _ _ _ _ _ _). simpl. repeat split; assumption.
  - destruct (allowed_file (c :: n)); [|discriminate].
    intros [= <- <-]. exists cu, job.
    eexists (Application.mk _ _ _ _ _ _). simpl. repeat split; assumption.
  - intros [= <- <-]. exists cu, job.
    eexists (Application.mk _ _ _ _ _ _). simpl. repeat split; assumption.
Qed.

(** C2.  When an application is accepted, the applicant has exactly one
    application for that job afterwards, and every further call of
    [apply] by the same user for the same job is answered with the
    Conflict message and leaves the database, and so the count of one,
    as it is. *)
Theorem apply_only_once (db db' : Db) (s : session) (jid : Z) (req : Request)
  (inserted_at : Z) (target : endpoint) (cu : User.t) :
  current_user db s = Some cu ->
  apply secure_filename db s jid req inserted_at
  = (Redirect (Some application_submitted) target, db') ->
  application_count db jid (User.id cu) = 0%nat
  /\ application_count db' jid (User.id cu) = 1%nat
  /\ forall req2 inserted_at2,
       apply secure_filename db' s jid req2 inserted_at2
       = (Redirect (Some already_applied) (job_detail_ep jid), db')
       /\ outcome_of (fst (apply secure_filename db' s jid req2 inserted_at2))
          = Conflict
       /\ application_count
            (snd (apply secure_filename db' s jid req2 inserted_at2))
            jid (User.id cu) = 1%nat.
Proof.
  intros Hcu Hrun. apply apply_submitted in Hrun.
  destruct Hrun as (cu' & job & a & Hcu' & Hj & Hnone & Ha & Hja & _
                    & Hu & Hjobs & Happs).
  rewrite Hcu in Hcu'. injection Hcu' as <-.
  assert (Hone : applications_of db' jid (User.id cu) = [a]).
  { unfold applications_of in *. rewrite Happs, filter_app, Hnone. simpl.
    now rewrite Hja, Ha, !Z.eqb_refl. }
  unfold application_count. rewrite Hnone, Hone.
  split; [reflexivity|]. split; [reflexivity|].
  intros req2 t2.
  assert (Hagain : apply secure_filename db' s jid req2 t2
                   = (Redirect (Some already_applied) (job_detail_ep jid),
                      db')).
  { apply apply_again with (cu := cu) (job := job).
    - destruct s as [uid|]; [|discriminate]. simpl in *.
      unfold get_user in *. now rewrite Hu.
    - unfold get_job in *. now rewrite Hjobs.
    - rewrite Hone. discriminate. }
  rewrite Hagain. simpl. now rewrite Hone.
Qed.

(** C6.  For an application form that carries a resume file, sent by a
    user who may still apply to the job: unless the file name has a dot
    and the part after its last dot is, up to case, one of pdf, doc and
    docx, the answer is the ValidationError message, and neither an
    application nor a file is stored; otherwise the application is
    stored together with the file.  In particular a name that ends in
    ".exe" in any case is refused, and one that ends in ".pdf", ".doc"
    or ".docx" in any case is accepted. *)
Theorem apply_resume_extension (db : Db) (s : session) (jid : Z)
  (req : Request) (inserted_at : Z) (cu : User.t) (job : Job.t)
  (filename : text) :
  current_user db s = Some cu -> get_job db jid = Some job ->
  applications_of db jid (User.id cu) = [] ->
  method req = POST ->
  get (files req) "resume" = Some filename -> filename <> [] ->
  let accepted :=
    exists stem ext,
      filename = (stem ++ "."%char :: ext)%list /\ ~ In "."%char ext
      /\ In (py_lower ext) [str "pdf"; str "doc"; str "docx"] in
  let answer := apply secure_filename db s jid req inserted_at in
  (~ accepted ->
   answer = (Redirect (Some invalid_resume) (apply_ep jid), db)
   /\ outcome_of (fst answer) = ValidationError)
  /\
  (accepted ->
   exists a fname,
     answer
     = (Redirect (Some application_submitted) (job_detail_ep jid),
        mkDb (users db) (jobs db) (applications db ++ [a])
             (fname :: uploads db))
     /\ Application.resume_path a = Some fname
     /\ Application.applicant_id a = User.id cu
     /\ Application.job_id a = jid)
  /\
  (forall stem ext,
     filename = (stem ++ "."%char :: ext)%list ->
     (py_lower ext = str "exe" -> ~ accepted)
     /\ (In (py_lower ext) [str "pdf"; str "doc"; str "docx"] -> accepted)).
Proof.
  intros Hcu Hj Hnone Hm Hfile Hne accepted answer.
  assert (Hallowed : allowed_file filename = true <-> accepted).
  { unfold allowed_file, accepted. split.
    - destruct (rsplit_dot filename) as [ext|] eqn:He; [|discriminate].
      intros Hex. apply rsplit_dot_Some in He.
      destruct He as (stem & -> & Hnd). exists stem, ext.
      split; [reflexivity|]. split; [assumption|].
      apply existsb_exists in Hex. destruct Hex as (x & Hx & Hxe).
      apply text_eqb_eq in Hxe. now subst x.
    - intros (stem & ext & -> & Hnd & Hin).
      rewrite rsplit_dot_app by assumption.
      apply existsb_exists. exists (py_lower ext).
      split; [exact Hin | apply text_eqb_refl]. }
  assert (Hrun : answer =
    if allowed_file filename then
      let fname :=
        secure_filename
          (py_str_int (User.id cu) ++ str "_"
           ++ py_str_int (Z.quot (now req) 1000000) ++ str "_" ++ filename)
      in
      (Redirect (Some application_submitted) (job_detail_ep jid),
       mkDb (users db) (jobs db)
            (applications db
             ++ [Application.mk
                   (next_id (map Application.id (applications db)))
                   (User.id cu) jid
                   (strip (get_or (form req) "cover_letter" []))
                   (Some fname) inserted_at])
            (fname :: uploads db))
    else (Redirect (Some invalid_resume) (apply_ep jid), db)).
  { unfold answer, apply. rewrite Hcu, Hj.
    destruct (get_job_id _ _ _ Hj) as [_ ->]. rewrite Hnone, Hm, Hfile.
    destruct filename as [| c n]; [congruence | reflexivity]. }
  split; [|split].
  - intros Hno. destruct (allowed_file filename) eqn:Hal.
    + exfalso. apply Hno. now apply Hallowed.
    + rewrite Hrun. split; reflexivity.
  - intros Hyes. apply Hallowed in Hyes. rewrite Hyes in Hrun.
    rewrite Hrun. eexists (Application.mk _ _ _ _ _ _). eexists.
    simpl. repeat split.
  - intros stem ext Hf. split.
    + intros Hexe (stem' & ext' & Hf' & Hnd' & Hin').
      assert (Hx : rsplit_dot filename = Some ext')
        by (rewrite Hf'; now apply rsplit_dot_app).
      destruct (in_dec ascii_dec "."%char ext) as [Hd|Hd].
      * apply (in_map py_lower_char) in Hd. fold (py_lower ext) in Hd.
        rewrite Hexe in Hd. vm_compute in Hd. intuition discriminate.
      * rewrite Hf, rsplit_dot_app in Hx by assumption.
        injection Hx as <-. rewrite Hexe in Hin'.
        vm_compute in Hin'. intuition discriminate.
    + intros Hin. exists stem, ext. split; [assumption|]. split; [|assumption].
      intros Hd. apply (in_map py_lower_char) in Hd. fold (py_lower ext) in Hd.
      destruct Hin as [Hin|[Hin|[Hin|[]]]]; rewrite <- Hin in Hd;
        vm_compute in Hd; intuition discriminate.
Qed.

End Applying.

(* ================================================================== *)
(** ** Properties of the job listing *)
(* ================================================================== *)

Section Listing.

Lemma insert_desc_perm (j : Job.t) (l : list Job.t) :
  Permutation (insert_desc j l) (j :: l).
Proof.
  induction l as [| k l IH]; simpl; [reflexivity|].
  destruct (Job.created_at j <? Job.created_at k); [|reflexivity].
  rewrite IH. apply perm_swap.
Qed.

Lemma order_by_perm (l : list Job.t) :
  Permutation (order_by_created_at_desc l) l.
Proof.
  induction l as [| j l IH]; simpl; [reflexivity|].
  rewrite insert_desc_perm. now apply perm_skip.
Qed.

Lemma insert_desc_sorted (j : Job.t) (l : list Job.t) :
  newest_first l -> newest_first (insert_desc j l).
Proof.
  unfold newest_first. induction 1 as [| k l Hs IH Hk]; simpl.
  - repeat constructor.
  - destruct (Z.ltb_spec (Job.created_at j) (Job.created_at k)) as [Hlt|Hge].
    + constructor; [exact IH|].
      apply Forall_forall. intros x Hx.
      apply (Permutation_in _ (insert_desc_perm j l)) in Hx.
      destruct Hx as [<-|Hx]; [lia|].
      rewrite Forall_forall in Hk. now apply Hk.
    + constructor; [now constructor|].
      constructor; [lia|].
      eapply Forall_impl; [|exact Hk]. simpl. intros x Hx. lia.
Qed.

Lemma order_by_sorted (l : list Job.t) :
  newest_first (order_by_created_at_desc l).
Proof.
  induction l as [| j l IH]; simpl; [constructor|].
  now apply insert_desc_sorted.
Qed.

(** [index] lists the jobs that pass its filter, newest first. *)
Lemma index_jobs (db : Db) (req : Request) :
  let v k := strip (get_or (args req) k []) in
  Permutation (page_jobs (index db req))
              (filter (index_filter (v "q"%string) (v "company"%string)
                                    (v "location"%string)
                                    (v "job_type"%string))
                      (jobs db))
  /\ newest_first (page_jobs (index db req)).
Proof.
  simpl. split; [apply order_by_perm | apply order_by_sorted].
Qed.

Lemma strip_nil : strip [] = [].
Proof. reflexivity. Qed.

Lemma newest_first_distinct (l : list Job.t) :
  newest_first l -> NoDup (map Job.created_at l) -> strictly_newest_first l.
Proof.
  unfold newest_first, strictly_newest_first.
  induction 1 as [| a l Hs IH Ha]; simpl; intros Hnd; [constructor|].
  inversion Hnd as [| ? ? Hnotin Hl]; subst.
  constructor; [now apply IH|].
  rewrite Forall_forall in *. intros x Hx. specialize (Ha x Hx).
  assert (Job.created_at x <> Job.created_at a).
  { intros Heq. apply Hnotin. rewrite <- Heq. now apply in_map. }
  lia.
Qed.

(** C4 as amended.  Without filters, [index] returns every job, each as
    often as it is stored, in the order of creation time from newest to
    oldest: no job comes before a job created later.  The order is
    strictly descending when no two jobs were created at the same
    time. *)
Theorem index_all_newest_first (db : Db) (req : Request) :
  no_filters req ->
  Permutation (page_jobs (index db req)) (jobs db)
  /\ newest_first (page_jobs (index db req))
  /\ (NoDup (map Job.created_at (jobs db)) ->
      strictly_newest_first (page_jobs (index db req))).
Proof.
  intros (Hq & Hc & Hl & Ht).
  destruct (index_jobs db req) as [Hp Hs].
  assert (Hall : Permutation (page_jobs (index db req)) (jobs db)).
  { rewrite Hp. unfold get_or. rewrite Hq, Hc, Hl, Ht, strip_nil.
    unfold index_filter. simpl. now rewrite filter_all. }
  split; [exact Hall|]. split; [exact Hs|].
  intros Hnd. apply newest_first_distinct; [exact Hs|].
  eapply Permutation_NoDup; [|exact Hnd].
  apply Permutation_map, Permutation_sym, Hall.
Qed.

(** With two jobs created at the same time no listing can be strictly
    descending. *)
Lemma ties_never_strict (a b : Job.t) (l : list Job.t) :
  Job.created_at a = Job.created_at b ->
  Permutation l [a; b] -> ~ strictly_newest_first l.
Proof.
  intros Heq Hp Hs.
  assert (Hl : l = [a; b] \/ l = [b; a]).
  { apply Permutation_sym, Permutation_length_2_inv in Hp. tauto. }
  destruct Hl as [-> | ->]; inversion Hs as [| x m _ Hall]; subst;
    inversion Hall as [| y n Hlt _]; subst; lia.
Qed.





End Listing.

(* ================================================================== *)
(** ** Primary keys stay unique *)
(* ================================================================== *)

Section Keys.

Variable generate_password_hash : text -> text.
Variable secure_filename : text -> text.

Lemma NoDup_new_row {A : Type} (key : A -> Z) (l : list A) (x : A) :
  key x = next_id (map key l) ->
  NoDup (map key l) -> NoDup (map key (l ++ [x])).
Proof.
  intros Hx Hnd.
  apply (Permutation_NoDup (l := map key (x :: l))).
  - apply Permutation_map. apply Permutation_cons_append.
  - simpl. constructor; [|exact Hnd]. rewrite Hx. apply next_id_fresh.
Qed.

Lemma keys_unique_register (db : Db) (s : session) (req : Request) :
  keys_unique db ->
  keys_unique (snd (fst (register generate_password_hash db s req))).
Proof.
  intros Hk. unfold register.
  repeat match goal with
         | |- context [match ?x with _ => _ end] => destruct x
         end; try exact Hk;
    destruct Hk as (Hu & Hj & Ha); repeat split; simpl; try assumption;
    now apply NoDup_new_row.
Qed.

Lemma keys_unique_create_job (db : Db) (s : session) (req : Request) :
  keys_unique db -> keys_unique (snd (create_job db s req)).
Proof.
  intros Hk. unfold create_job.
  repeat match goal with
         | |- context [match ?x with _ => _ end] => destruct x
         end; try exact Hk;
    destruct Hk as (Hu & Hj & Ha); repeat split; simpl; try assumption;
    now apply NoDup_new_row.
Qed.

Lemma keys_unique_apply (db : Db) (s : session) (jid : Z) (req : Request)
  (inserted_at : Z) :
  keys_unique db ->
  keys_unique (snd (apply secure_filename db s jid req inserted_at)).
Proof.
  intros Hk. unfold apply.
  repeat match goal with
         | |- context [match ?x with _ => _ end] => destruct x
         end; try exact Hk;
    destruct Hk as (Hu & Hj & Ha); repeat split; simpl; try assumption;
    now apply NoDup_new_row.
Qed.

Lemma keys_unique_edit_job (db : Db) (s : session) (jid : Z) (req : Request) :
  keys_unique db -> keys_unique (snd (edit_job db s jid req)).
Proof.
  intros Hk. unfold edit_job.
  repeat match goal with
         | |- context [match ?x with _ => _ end] => destruct x
         end; try exact Hk;
    destruct Hk as (Hu & Hj & Ha); repeat split; simpl; try assumption.
  rewrite map_map. erewrite map_ext; [exact Hj|].
  intros k. simpl.
  match goal with
  | |- context [Job.id k =? ?i] => destruct (Z.eqb_spec (Job.id k) i)
  end; simpl; congruence.
Qed.

Lemma keys_unique_session_delete_job (db : Db) (j : Job.t) :
  keys_unique db -> keys_unique (session_delete_job db j).
Proof.
  intros (Hu & Hj & Ha). rewrite session_delete_job_eq by assumption.
  repeat split; simpl; try assumption; now apply NoDup_map_filter.
Qed.

Lemma keys_unique_session_delete_user (db : Db) (u : User.t) :
  keys_unique db -> keys_unique (session_delete_user db u).
Proof.
  intros Hk. rewrite session_delete_user_eq by assumption.
  destruct Hk as (Hu & Hj & Ha).
  repeat split; simpl; now apply NoDup_map_filter.
Qed.

Lemma keys_unique_delete (db : Db) (s : session) (k : Z) :
  keys_unique db ->
  keys_unique (snd (delete_job db s k))
  /\ keys_unique (snd (admin_delete_job db s k))
  /\ keys_unique (snd (admin_delete_user db s k)).
Proof.
  intros Hk. unfold delete_job, admin_delete_job, admin_delete_user.
  split; [|split];
    repeat match goal with
           | |- context [match ?x with _ => _ end] => destruct x
           end; simpl; try exact Hk;
    (now apply keys_unique_session_delete_job)
    || (now apply keys_unique_session_delete_user).
Qed.

End Keys.

(* ================================================================== *)
(** ** Concrete runs *)
(* ================================================================== *)

Section Runs.

Import Sample.

(** Two jobs posted at the same instant: the listing holds both and is
    not strictly descending in creation time. *)
Lemma index_ties_not_strict :
  no_filters (get_request [])
  /\ Job.created_at backend = Job.created_at frontend
  /\ Permutation (page_jobs (index db_two_jobs (get_request [])))
                 [backend; frontend]
  /\ ~ strictly_newest_first (page_jobs (index db_two_jobs (get_request []))).
Proof.
  assert (Hp : Permutation (page_jobs (index db_two_jobs (get_request [])))
                           [backend; frontend]).
  { change (page_jobs (index db_two_jobs (get_request [])))
      with (order_by_created_at_desc [backend; frontend]).
    apply order_by_perm. }
  repeat split; try assumption.
  apply (ties_never_strict backend frontend); [reflexivity | exact Hp].
Qed.


(** The free text of [index] is a LIKE pattern: an underscore stands
    for any one character. *)
Example index_underscore_in_query :
  page_jobs (index db_one_job (get_request [("q"%string, str "a_i")]))
  = [backend]
  /\ contains_ci (str "a_i") (Job.job_title backend) = false
  /\ contains_ci (str "a_i") (Job.description backend) = false.
Proof. vm_compute. auto. Qed.

(* ------------------------------------------------------------------ *)
(** *** The theorems at sample inputs *)

Lemma create_job_gate_witness :
  current_user db_users (Some 3) = Some bob
  /\ create_job db_users (Some 3)
       (post_request [("job_title"%string, str "Backend Engineer")] [])
     = (Redirect (Some only_employers) index_ep, db_users).
Proof.
  split; [reflexivity|].
  destruct (create_job_gate db_users (Some 3)
              (post_request [("job_title"%string, str "Backend Engineer")] [])
              bob eq_refl) as [Hno _].
  apply Hno; reflexivity.
Defined.


Lemma admin_delete_user_self_witness :
  current_user db_users (Some 1) = Some site_admin
  /\ User.is_admin site_admin = true
  /\ admin_delete_user db_users (Some 1) 1
     = (Redirect (Some own_account) admin_users_ep, db_users).
Proof.
  split; [reflexivity|]. split; [reflexivity|].
  destruct (admin_delete_user_self db_users (Some 1) site_admin
              eq_refl eq_refl) as [(Hself & _) _].
  exact Hself.
Defined.

Lemma register_email_unique_witness :
  register hash db_users None
    (registration "Carol" " Carol@X.com " "pw-c" "pw-c")
  = (Redirect (Some registered) index_ep, db_carol, Some 4)
  /\ register hash db_carol None
       (registration "Carla" "CAROL@x.COM" "pw-d" "pw-d")
     = (Redirect (Some email_registered) login_ep, db_carol, None).
Proof.
  split; [reflexivity|].
  destruct (register_email_unique hash db_users db_carol None (Some 4)
              (registration "Carol" " Carol@X.com " "pw-c" "pw-c") index_ep
              eq_refl) as (e & u & He & Hdb & Hu & _ & Hsecond).
  injection He as <-.
  refine (proj1 (Hsecond (registration "Carla" "CAROL@x.COM" "pw-d" "pw-d")
                         (str "CAROL@x.COM") None eq_refl _ _)).
  - repeat split; vm_compute; discriminate.
  - rewrite Hu. vm_compute. reflexivity.
Defined.

Lemma register_passwords_differ_witness :
  let req := registration "Carol" "carol@x.com" "pw-c" "pw-x" in
  get_or (form req) "password" [] <> get_or (form req) "confirm" []
  /\ snd (fst (register hash db_users None req)) = db_users
  /\ outcome_of (fst (fst (register hash db_users None req))) = ValidationError.
Proof.
  cbv zeta.
  assert (Hne : get_or (form (registration "Carol" "carol@x.com" "pw-c" "pw-x"))
                       "password" []
                <> get_or (form (registration "Carol" "carol@x.com" "pw-c"
                                              "pw-x")) "confirm" []).
  { vm_compute. discriminate. }
  split; [exact Hne|].
  destruct (register_passwords_differ hash db_users None _ Hne)
    as (Hdb & _ & Hout).
  split; [exact Hdb|]. apply Hout; [reflexivity | reflexivity |].
  vm_compute. discriminate.
Defined.

Lemma apply_only_once_witness :
  let req := post_request [("cover_letter"%string, str " Hi ")] [] in
  current_user db_one_job (Some 3) = Some bob
  /\ apply secure db_one_job (Some 3) 1 req 400
     = (Redirect (Some application_submitted) (job_detail_ep 1), db_applied)
  /\ application_count db_applied 1 3 = 1%nat
  /\ apply secure db_applied (Some 3) 1 req 700
     = (Redirect (Some already_applied) (job_detail_ep 1), db_applied).
Proof.
  cbv zeta. split; [reflexivity|]. split; [reflexivity|].
  destruct (apply_only_once secure db_one_job db_applied (Some 3) 1
              (post_request [("cover_letter"%string, str " Hi ")] []) 400
              (job_detail_ep 1) bob eq_refl eq_refl) as (_ & Hone & Hagain).
  split; [exact Hone|].
  exact (proj1 (Hagain _ 700)).
Defined.

Lemma apply_resume_extension_witness :
  let good := post_request [] [("resume"%string, str "cv.final.PdF")] in
  let bad := post_request [] [("resume"%string, str "cv.pdf.EXE")] in
  current_user db_one_job (Some 3) = Some bob
  /\ get_job db_one_job 1 = Some backend
  /\ applications_of db_one_job 1 3 = []
  /\ (exists a fname,
        apply secure db_one_job (Some 3) 1 good 400
        = (Redirect (Some application_submitted) (job_detail_ep 1),
           mkDb (users db_one_job) (jobs db_one_job)
                (applications db_one_job ++ [a])
                (fname :: uploads db_one_job))
        /\ Application.resume_path a = Some fname
        /\ Application.applicant_id a = 3
        /\ Application.job_id a = 1)
  /\ apply secure db_one_job (Some 3) 1 bad 400
     = (Redirect (Some invalid_resume) (apply_ep 1), db_one_job).
Proof.
  cbv zeta. split; [reflexivity|]. split; [reflexivity|].
  split; [reflexivity|]. split.
  - destruct (apply_resume_extension secure db_one_job (Some 3) 1
                (post_request [] [("resume"%string, str "cv.final.PdF")])
                400 bob backend (str "cv.final.PdF")
                eq_refl eq_refl eq_refl eq_refl eq_refl
                ltac:(discriminate)) as (_ & Hyes & _).
    apply Hyes. exists (str "cv.final"), (str "PdF").
    split; [reflexivity|]. split.
    + vm_compute. intuition discriminate.
    + vm_compute. auto.
  - destruct (apply_resume_extension secure db_one_job (Some 3) 1
                (post_request [] [("resume"%string, str "cv.pdf.EXE")])
                400 bob backend (str "cv.pdf.EXE")
                eq_refl eq_refl eq_refl eq_refl eq_refl
                ltac:(discriminate)) as (Hno & _ & Hext).
    apply Hno.
    apply (proj1 (Hext (str "cv.pdf") (str "EXE") eq_refl)). reflexivity.
Defined.

Lemma index_all_newest_first_witness :
  no_filters (get_request [])
  /\ Permutation (page_jobs (index db_two_jobs (get_request [])))
                 (jobs db_two_jobs)
  /\ newest_first (page_jobs (index db_two_jobs (get_request []))).
Proof.
  assert (Hn : no_filters (get_request [])) by (repeat split).
  split; [exact Hn|].
  destruct (index_all_newest_first db_two_jobs (get_request []) Hn)
    as (Hp & Hs & _).
  split; [exact Hp | exact Hs].
Defined.


End Runs.

(* ================================================================== *)
(** ** More facts about texts *)
(* ================================================================== *)

Section Trimming.

Lemma lstrip_idem (s : text) : lstrip (lstrip s) = lstrip s.
Proof.
  induction s as [| c t IH]; simpl; [reflexivity|].
  destruct (py_isspace c) eqn:Hc; [exact IH|]. simpl. now rewrite Hc.
Qed.

Lemma lstrip_last (l : text) (c : ascii) :
  py_isspace c = false -> lstrip (l ++ [c]) = (lstrip l ++ [c])%list.
Proof.
  intros Hc. induction l as [| d l IH]; simpl.
  - now rewrite Hc.
  - now destruct (py_isspace d).
Qed.

Lemma lstrip_rstrip (s : text) :
  lstrip s = s -> lstrip (rstrip s) = rstrip s.
Proof.
  destruct s as [| c t]; [reflexivity|]. simpl.
  destruct (py_isspace c) eqn:Hc.
  - intros H. exfalso.
    assert (Hlen : forall u, (List.length (lstrip u) <= List.length u)%nat).
    { induction u as [| d u IH]; simpl; [lia|].
      destruct (py_isspace d); simpl; lia. }
    specialize (Hlen t). rewrite H in Hlen. simpl in Hlen. lia.
  - intros _. unfold rstrip. simpl rev. rewrite lstrip_last by assumption.
    rewrite rev_app_distr. simpl. now rewrite Hc.
Qed.

Lemma strip_idem (s : text) : strip (strip s) = strip s.
Proof.
  unfold strip. rewrite lstrip_rstrip by apply lstrip_idem.
  unfold rstrip. now rewrite rev_involutive, lstrip_idem.
Qed.

End Trimming.

(* ================================================================== *)
(** ** What a writing route does to the database *)
(* ================================================================== *)

Section Effects.

Variable generate_password_hash : text -> text.
Variable secure_filename : text -> text.

Ltac cases :=
  repeat match goal with
         | |- context [match ?x with _ => _ end] => destruct x eqn:?
         end.

Lemma find_email_none (l : list User.t) (e : text) :
  find (fun u => text_eqb (User.email u) e) l = None ->
  ~ In e (map User.email l).
Proof.
  intros Hf Hin. apply in_map_iff in Hin. destruct Hin as (u & <- & Hu).
  apply (find_none _ _ Hf) in Hu. now rewrite text_eqb_refl in Hu.
Qed.

Lemma register_effect (db : Db) (s : session) (req : Request) :
  snd (fst (register generate_password_hash db s req)) = db
  \/ exists u,
       snd (fst (register generate_password_hash db s req))
       = mkDb (users db ++ [u]) (jobs db) (applications db) (uploads db)
       /\ User.id u = next_id (map User.id (users db))
       /\ User.is_admin u = false
       /\ ~ In (User.email u) (map User.email (users db)).
Proof.
  unfold register. cases; auto;
    right; eexists; (split; [reflexivity|]); simpl;
    repeat split; now apply find_email_none.
Qed.

Lemma bootstrap_effect (mail pwd : text) (t : Z) (db : Db) :
  (exists admin,
     find (fun u => text_eqb (User.email u) mail) (users db) = Some admin
     /\ bootstrap generate_password_hash mail pwd t db
        = mkDb (map (fun u =>
                       if User.id u =? User.id admin
                       then User.mk (User.id u) (User.fullname u)
                                    (User.email u) (User.password_hash u)
                                    true true (User.created_at u)
                       else u) (users db))
               (jobs db) (applications db) (uploads db))
  \/ exists u,
       bootstrap generate_password_hash mail pwd t db
       = mkDb (users db ++ [u]) (jobs db) (applications db) (uploads db)
       /\ User.id u = next_id (map User.id (users db))
       /\ User.email u = mail
       /\ User.is_admin u = true /\ User.is_employer u = true
       /\ ~ In (User.email u) (map User.email (users db)).
Proof.
  unfold bootstrap.
  destruct (find _ (users db)) as [admin|] eqn:Hf.
  - left. now exists admin.
  - right. eexists. split; [reflexivity|]. simpl. repeat split.
    now apply find_email_none.
Qed.

Lemma create_job_effect (db : Db) (s : session) (req : Request) :
  snd (create_job db s req) = db
  \/ exists cu job,
       current_user db s = Some cu
       /\ snd (create_job db s req)
          = mkDb (users db) (jobs db ++ [job]) (applications db) (uploads db)
       /\ Job.id job = next_id (map Job.id (jobs db))
       /\ Job.posted_by_id job = User.id cu
       /\ Job.created_at job = now req
       /\ fields_nonempty job
       /\ job_trimmed job.
Proof.
  unfold create_job. cases; auto.
  right. do 2 eexists. split; [reflexivity|]. split; [reflexivity|].
  simpl.
  repeat match goal with
         | H : (_ || _)%bool = false |- _ =>
             apply orb_false_iff in H; destruct H
         | H : is_empty _ = false |- _ => apply is_empty_false in H
         end.
  unfold fields_nonempty, job_trimmed. simpl.
  repeat split; try assumption; apply strip_idem.
Qed.

Lemma apply_effect (db : Db) (s : session) (jid : Z) (req : Request)
  (inserted_at : Z) :
  snd (apply secure_filename db s jid req inserted_at) = db
  \/ exists cu job a saved,
       current_user db s = Some cu /\ get_job db jid = Some job
       /\ applications_of db jid (User.id cu) = []
       /\ snd (apply secure_filename db s jid req inserted_at)
          = mkDb (users db) (jobs db) (applications db ++ [a]) saved
       /\ Application.id a = next_id (map Application.id (applications db))
       /\ Application.applicant_id a = User.id cu
       /\ Application.job_id a = jid
       /\ incl (uploads db) saved
       /\ (forall f, Application.resume_path a = Some f -> In f saved).
Proof.
  unfold apply.
  destruct (current_user db s) as [cu|] eqn:Hcu; [|now left].
  destruct (get_job db jid) as [job|] eqn:Hj; [|now left].
  destruct (get_job_id _ _ _ Hj) as [_ Hid]. rewrite Hid.
  destruct (applications_of db jid (User.id cu)) eqn:Ha; [|now left].
  destruct (method req); [now left|].
  destruct (get (files req) "resume") as [[| c n]|].
  - right. exists cu, job. eexists (Application.mk _ _ _ _ _ _), _.
    simpl. repeat split; try reflexivity; try assumption;
      try apply incl_refl. discriminate.
  - destruct (allowed_file (c :: n)); [|now left].
    right. exists cu, job. eexists (Application.mk _ _ _ _ _ _), _.
    simpl. repeat split; try reflexivity; try assumption.
    + apply incl_tl, incl_refl.
    + intros f [= <-]. now left.
  - right. exists cu, job. eexists (Application.mk _ _ _ _ _ _), _.
    simpl. repeat split; try reflexivity; try assumption;
      try apply incl_refl. discriminate.
Qed.

Lemma edit_job_effect (db : Db) (s : session) (jid : Z) (req : Request) :
  snd (edit_job db s jid req) = db
  \/ exists cu job job',
       current_user db s = Some cu /\ get_job db jid = Some job
       /\ (Job.posted_by_id job = User.id cu \/ User.is_admin cu = true)
       /\ snd (edit_job db s jid req)
          = mkDb (users db)
                 (map (fun k => if Job.id k =? Job.id job then job' else k)
                      (jobs db))
                 (applications db) (uploads db)
       /\ Job.id job' = Job.id job
       /\ Job.posted_by_id job' = Job.posted_by_id job
       /\ Job.created_at job' = Job.created_at job
       /\ job_trimmed job'.
Proof.
  unfold edit_job.
  destruct (current_user db s) as [cu|] eqn:Hcu; [|now left].
  destruct (get_job db jid) as [job|] eqn:Hj; [|now left].
  destruct (_ && _)%bool eqn:Hauth; [now left|].
  destruct (method req); [now left|].
  right. exists cu, job. eexists. simpl.
  split; [reflexivity|]. split; [reflexivity|]. split.
  { apply andb_false_iff in Hauth. destruct Hauth as [H|H];
      apply negb_false_iff in H; [left; now apply Z.eqb_eq | now right]. }
  split; [reflexivity|]. simpl. unfold job_trimmed. simpl.
  repeat split; apply strip_idem.
Qed.

Lemma delete_job_effect (db : Db) (s : session) (jid : Z) :
  snd (delete_job db s jid) = db
  \/ exists cu job,
       current_user db s = Some cu /\ get_job db jid = Some job
       /\ (Job.posted_by_id job = User.id cu \/ User.is_admin cu = true)
       /\ snd (delete_job db s jid) = session_delete_job db job.
Proof.
  unfold delete_job.
  destruct (current_user db s) as [cu|] eqn:Hcu; [|now left].
  destruct (get_job db jid) as [job|] eqn:Hj; [|now left].
  destruct (_ && _)%bool eqn:Hauth; [now left|].
  right. exists cu, job. repeat split.
  apply andb_false_iff in Hauth. destruct Hauth as [H|H];
    apply negb_false_iff in H; [left; now apply Z.eqb_eq | now right].
Qed.

Lemma admin_delete_job_effect (db : Db) (s : session) (jid : Z) :
  snd (admin_delete_job db s jid) = db
  \/ exists cu job,
       current_user db s = Some cu /\ User.is_admin cu = true
       /\ get_job db jid = Some job
       /\ snd (admin_delete_job db s jid) = session_delete_job db job.
Proof.
  unfold admin_delete_job.
  destruct (current_user db s) as [cu|] eqn:Hcu; [|now left].
  destruct (User.is_admin cu) eqn:Hadm; [|now left]. simpl.
  destruct (get_job db jid) as [job|] eqn:Hj; [|now left].
  right. now exists cu, job.
Qed.

Lemma admin_delete_user_effect (db : Db) (s : session) (uid : Z) :
  snd (admin_delete_user db s uid) = db
  \/ exists cu u,
       current_user db s = Some cu /\ User.is_admin cu = true
       /\ get_user db uid = Some u /\ User.id u <> User.id cu
       /\ snd (admin_delete_user db s uid) = session_delete_user db u.
Proof.
  unfold admin_delete_user.
  destruct (current_user db s) as [cu|] eqn:Hcu; [|now left].
  destruct (User.is_admin cu) eqn:Hadm; [|now left]. simpl.
  destruct (get_user db uid) as [u|] eqn:Hu; [|now left].
  destruct (Z.eqb_spec (User.id u) (User.id cu)); [now left|].
  right. now exists cu, u.
Qed.

End Effects.

(* ================================================================== *)
(** ** Invariants of the reachable databases *)
(* ================================================================== *)

Section Invariants.

Variable generate_password_hash : text -> text.
Variable secure_filename : text -> text.

Local Abbreviation run := (run generate_password_hash secure_filename).
Local Abbreviation reachable :=
  (reachable generate_password_hash secure_filename).

Lemma emails_distinct_filter (keep : User.t -> bool) (us : list User.t) :
  NoDup (map User.email us) -> NoDup (map User.email (filter keep us)).
Proof.
  intros Hnd. induction us as [| u us IH]; simpl in *; [constructor|].
  apply NoDup_cons_iff in Hnd. destruct Hnd as [Hu Hus].
  destruct (keep u); simpl; [|now apply IH].
  apply NoDup_cons_iff. split; [|now apply IH].
  intros Hin. apply Hu. apply in_map_iff in Hin.
  destruct Hin as (v & Hv & Hvin). apply filter_In in Hvin.
  rewrite <- Hv. apply in_map. tauto.
Qed.

Lemma NoDup_map_snoc {A B : Type} (f : A -> B) (l : list A) (x : A) :
  ~ In (f x) (map f l) -> NoDup (map f l) -> NoDup (map f (l ++ [x])).
Proof.
  intros Hx Hnd.
  apply (Permutation_NoDup (l := map f (x :: l))).
  - apply Permutation_map. apply Permutation_cons_append.
  - simpl. now constructor.
Qed.

Lemma flags_keep_ids (i : Z) (l : list User.t) :
  map User.id
      (map (fun u => if User.id u =? i
                     then User.mk (User.id u) (User.fullname u) (User.email u)
                                  (User.password_hash u) true true
                                  (User.created_at u)
                     else u) l)
  = map User.id l.
Proof.
  rewrite map_map. apply map_ext. intros u.
  now destruct (User.id u =? i).
Qed.

Lemma flags_keep_emails (i : Z) (l : list User.t) :
  map User.email
      (map (fun u => if User.id u =? i
                     then User.mk (User.id u) (User.fullname u) (User.email u)
                                  (User.password_hash u) true true
                                  (User.created_at u)
                     else u) l)
  = map User.email l.
Proof.
  rewrite map_map. apply map_ext. intros u.
  now destruct (User.id u =? i).
Qed.

Lemma edit_keeps_ids (job job' : Job.t) (l : list Job.t) :
  Job.id job' = Job.id job ->
  map Job.id (map (fun k => if Job.id k =? Job.id job then job' else k) l)
  = map Job.id l.
Proof.
  intros H. rewrite map_map. apply map_ext. intros k.
  destruct (Z.eqb_spec (Job.id k) (Job.id job)); congruence.
Qed.

(** *** Primary keys *)

Lemma keys_unique_run (db : Db) (a : action) :
  keys_unique db -> keys_unique (run db a).
Proof.
  intros Hk. destruct a as [mail pwd t| s req | s req | s j req t
                            | s j req | s j | s u | s j]; simpl.
  - destruct Hk as (Hu & Hj & Ha).
    destruct (bootstrap_effect generate_password_hash mail pwd t db)
      as [(admin & _ & ->) | (u & -> & Hid & _)];
      repeat split; simpl; try assumption.
    + now rewrite flags_keep_ids.
    + now apply NoDup_new_row.
  - now apply keys_unique_register.
  - now apply keys_unique_create_job.
  - now apply keys_unique_apply.
  - now apply keys_unique_edit_job.
  - now apply keys_unique_delete.
  - now apply keys_unique_delete.
  - now apply keys_unique_delete.
Qed.

(** *** Foreign keys *)

Lemma refs_ok_more_users (db : Db) (us : list User.t) :
  incl (map User.id (users db)) (map User.id us) ->
  refs_ok db ->
  refs_ok (mkDb us (jobs db) (applications db) (uploads db)).
Proof.
  intros Hincl [Hj Ha]. split; simpl.
  - eapply Forall_impl; [|exact Hj]. simpl. auto.
  - eapply Forall_impl; [|exact Ha]. simpl. intros a [H1 H2]. auto.
Qed.

Lemma refs_ok_session_delete_job (db : Db) (j : Job.t) :
  keys_unique db -> refs_ok db -> refs_ok (session_delete_job db j).
Proof.
  intros (_ & _ & Hk) [Hj Ha]. rewrite session_delete_job_eq by assumption.
  rewrite Forall_forall in Hj, Ha. split; simpl; apply Forall_forall.
  - intros k Hin. apply filter_In in Hin. now apply Hj.
  - intros a Hin. apply filter_In in Hin. destruct Hin as [Hin Hne].
    destruct (Ha a Hin) as [H1 H2]. split; [exact H1|].
    apply in_map_iff in H2. destruct H2 as (k & Hk1 & Hk2).
    apply in_map_iff. exists k. split; [exact Hk1|].
    apply filter_In. split; [exact Hk2|]. now rewrite Hk1.
Qed.

Lemma refs_ok_session_delete_user (db : Db) (u : User.t) :
  keys_unique db -> refs_ok db -> refs_ok (session_delete_user db u).
Proof.
  intros Hk [Hj Ha]. rewrite session_delete_user_eq by assumption.
  rewrite Forall_forall in Hj, Ha.
  assert (Huser : forall i, In i (map User.id (users db)) ->
            (i =? User.id u) = false ->
            In i (map User.id
                   (filter (fun v => negb (User.id v =? User.id u))
                           (users db)))).
  { intros i Hi Hne. apply in_map_iff in Hi. destruct Hi as (v & <- & Hv).
    apply in_map_iff. exists v. split; [reflexivity|].
    apply filter_In. split; [exact Hv|]. now rewrite Hne. }
  split; simpl; apply Forall_forall.
  - intros k Hin. apply filter_In in Hin. destruct Hin as [Hin Hne].
    apply Huser; [now apply Hj|]. now apply negb_true_iff.
  - intros a Hin. apply filter_In in Hin. destruct Hin as [Hin Hne].
    apply andb_true_iff in Hne. destruct Hne as [Hn1 Hn2].
    destruct (Ha a Hin) as [H1 H2]. split.
    + apply Huser; [exact H1|]. now apply negb_true_iff.
    + apply in_map_iff in H2. destruct H2 as (k & Hk1 & Hk2).
      apply in_map_iff. exists k. split; [exact Hk1|].
      apply filter_In. split; [exact Hk2|].
      apply negb_true_iff in Hn2.
      destruct (Job.posted_by_id k =? User.id u) eqn:Hp; [|reflexivity].
      exfalso. rewrite <- not_true_iff_false in Hn2. apply Hn2.
      apply existsb_exists. exists k. split; [exact Hk2|].
      now rewrite Hk1, Z.eqb_refl, Hp.
Qed.

Lemma refs_ok_run (db : Db) (a : action) :
  keys_unique db -> refs_ok db -> refs_ok (run db a).
Proof.
  intros Hk Hr. destruct a as [mail pwd t| s req | s req | s j req t
                               | s j req | s j | s u | s j]; simpl.
  - destruct (bootstrap_effect generate_password_hash mail pwd t db)
      as [(admin & _ & ->) | (u & -> & _)];
      apply refs_ok_more_users; try assumption.
    + rewrite flags_keep_ids. apply incl_refl.
    + rewrite map_app. now apply incl_appl, incl_refl.
  - destruct (register_effect generate_password_hash db s req)
      as [-> | (u & -> & _)]; [assumption|].
    apply refs_ok_more_users; [|assumption].
    rewrite map_app. now apply incl_appl, incl_refl.
  - destruct (create_job_effect db s req)
      as [-> | (cu & job & Hcu & -> & _ & Hp & _)]; [assumption|].
    destruct Hr as [Hj Ha]. split; simpl.
    + apply Forall_app. split; [exact Hj|]. constructor; [|constructor].
      rewrite Hp. apply in_map. now apply current_user_id in Hcu.
    + eapply Forall_impl; [|exact Ha]. simpl. intros a [H1 H2].
      split; [exact H1|]. rewrite map_app. apply in_or_app. now left.
  - destruct (apply_effect secure_filename db s j req t)
      as [-> | (cu & job & a & saved & Hcu & Hjob & _ & -> & _ & Hu & Hj
                & _)]; [assumption|].
    destruct Hr as [Hjs Ha]. split; simpl; [exact Hjs|].
    apply Forall_app. split; [exact Ha|]. constructor; [|constructor].
    split.
    + rewrite Hu. apply in_map. now apply current_user_id in Hcu.
    + apply get_job_id in Hjob. destruct Hjob as [Hin <-]. rewrite Hj.
      now apply in_map.
  - destruct (edit_job_effect db s j req)
      as [-> | (cu & job & job' & _ & Hjob & _ & -> & Hid & Hp & _)];
      [assumption|].
    destruct Hr as [Hjs Ha]. split; simpl.
    + apply Forall_map. rewrite Forall_forall in *. intros k Hin.
      destruct (Job.id k =? Job.id job); [|now apply Hjs].
      rewrite Hp. apply Hjs. now apply get_job_id in Hjob.
    + rewrite edit_keeps_ids by assumption. exact Ha.
  - destruct (delete_job_effect db s j) as [-> | (cu & job & _ & _ & _ & ->)];
      [assumption | now apply refs_ok_session_delete_job].
  - destruct (admin_delete_user_effect db s u)
      as [-> | (cu & v & _ & _ & _ & _ & ->)];
      [assumption | now apply refs_ok_session_delete_user].
  - destruct (admin_delete_job_effect db s j)
      as [-> | (cu & job & _ & _ & _ & ->)];
      [assumption | now apply refs_ok_session_delete_job].
Qed.

(** *** One application per user and job *)

Lemma filter_filter_length {A : Type} (p q : A -> bool) (l : list A) :
  (List.length (filter p (filter q l)) <= List.length (filter p l))%nat.
Proof.
  induction l as [| x l IH]; simpl; [lia|].
  destruct (q x); simpl; destruct (p x); simpl; lia.
Qed.

Lemma one_application_fewer (db db' : Db) (q : Application.t -> bool) :
  applications db' = filter q (applications db) ->
  one_application_per_pair db -> one_application_per_pair db'.
Proof.
  intros Heq Hone jid uid. specialize (Hone jid uid).
  unfold application_count, applications_of in *. rewrite Heq.
  etransitivity; [apply filter_filter_length | exact Hone].
Qed.

Lemma one_application_run (db : Db) (a : action) :
  keys_unique db ->
  one_application_per_pair db -> one_application_per_pair (run db a).
Proof.
  intros Hk Hone.
  assert (Hsame : forall db', applications db' = applications db ->
                              one_application_per_pair db').
  { intros db' Heq jid uid. specialize (Hone jid uid).
    unfold application_count, applications_of in *. now rewrite Heq. }
  destruct a as [mail pwd t| s req | s req | s j req t
                 | s j req | s j | s u | s j]; simpl.
  - destruct (bootstrap_effect generate_password_hash mail pwd t db)
      as [(admin & _ & ->) | (u & -> & _)]; now apply Hsame.
  - destruct (register_effect generate_password_hash db s req)
      as [-> | (u & -> & _)]; [assumption | now apply Hsame].
  - destruct (create_job_effect db s req)
      as [-> | (cu & job & _ & -> & _)]; [assumption | now apply Hsame].
  - destruct (apply_effect secure_filename db s j req t)
      as [-> | (cu & job & a & saved & _ & _ & Hnone & -> & _ & Hu & Hj
                & _)]; [assumption|].
    intros jid uid. specialize (Hone jid uid).
    unfold application_count, applications_of in *. simpl.
    rewrite filter_app, length_app. simpl. rewrite Hu, Hj.
    destruct (Z.eqb_spec j jid) as [->|]; simpl; [|lia].
    destruct (Z.eqb_spec (User.id cu) uid) as [<-|]; simpl; [|lia].
    rewrite Hnone. simpl. lia.
  - destruct (edit_job_effect db s j req)
      as [-> | (cu & job & job' & _ & _ & _ & -> & _)];
      [assumption | now apply Hsame].
  - destruct (delete_job_effect db s j) as [-> | (cu & job & _ & _ & _ & ->)];
      [assumption|].
    rewrite session_delete_job_eq by apply Hk.
    eapply one_application_fewer; [|exact Hone]. reflexivity.
  - destruct (admin_delete_user_effect db s u)
      as [-> | (cu & v & _ & _ & _ & _ & ->)]; [assumption|].
    rewrite session_delete_user_eq by assumption.
    eapply one_application_fewer; [|exact Hone]. reflexivity.
  - destruct (admin_delete_job_effect db s j)
      as [-> | (cu & job & _ & _ & _ & ->)]; [assumption|].
    rewrite session_delete_job_eq by apply Hk.
    eapply one_application_fewer; [|exact Hone]. reflexivity.
Qed.

(** *** Emails *)

Lemma emails_unique_run (db : Db) (a : action) :
  emails_unique db -> emails_unique (run db a).
Proof.
  unfold emails_unique. intros He.
  destruct a as [mail pwd t| s req | s req | s j req t
                 | s j req | s j | s u | s j]; simpl.
  - destruct (bootstrap_effect generate_password_hash mail pwd t db)
      as [(admin & _ & ->) | (u & -> & _ & _ & _ & _ & Hnew)]; simpl.
    + now rewrite flags_keep_emails.
    + now apply NoDup_map_snoc.
  - destruct (register_effect generate_password_hash db s req)
      as [-> | (u & -> & _ & _ & Hnew)]; [assumption|].
    simpl. now apply NoDup_map_snoc.
  - destruct (create_job_effect db s req)
      as [-> | (cu & job & _ & -> & _)]; assumption.
  - destruct (apply_effect secure_filename db s j req t)
      as [-> | (cu & job & a & saved & _ & _ & _ & -> & _)]; assumption.
  - destruct (edit_job_effect db s j req)
      as [-> | (cu & job & job' & _ & _ & _ & -> & _)]; assumption.
  - destruct (delete_job_effect db s j) as [-> | (cu & job & _ & _ & _ & ->)];
      [assumption|].
    unfold session_delete_job. now rewrite delete_rows.
  - destruct (admin_delete_user_effect db s u)
      as [-> | (cu & v & _ & _ & _ & _ & ->)]; [assumption|].
    rewrite users_session_delete_user. now apply emails_distinct_filter.
  - destruct (admin_delete_job_effect db s j)
      as [-> | (cu & job & _ & _ & _ & ->)]; [assumption|].
    unfold session_delete_job. now rewrite delete_rows.
Qed.

(** *** Uploads *)

Lemma uploads_session_delete_job (db : Db) (j : Job.t) :
  uploads (session_delete_job db j) = uploads db.
Proof. unfold session_delete_job. now rewrite delete_rows. Qed.

Lemma uploads_delete_jobs (js : list Job.t) (db : Db) :
  uploads (fold_left session_delete_job js db) = uploads db.
Proof.
  revert db. induction js as [| j js IH]; intros db; simpl; [reflexivity|].
  now rewrite IH, uploads_session_delete_job.
Qed.

Lemma uploads_session_delete_user (db : Db) (u : User.t) :
  uploads (session_delete_user db u) = uploads db.
Proof.
  unfold session_delete_user. rewrite delete_rows. simpl.
  apply uploads_delete_jobs.
Qed.

Lemma uploads_run (db : Db) (a : action) :
  incl (uploads db) (uploads (run db a)).
Proof.
  destruct a as [mail pwd t| s req | s req | s j req t
                 | s j req | s j | s u | s j]; simpl.
  - destruct (bootstrap_effect generate_password_hash mail pwd t db)
      as [(admin & _ & ->) | (u & -> & _)]; apply incl_refl.
  - destruct (register_effect generate_password_hash db s req)
      as [-> | (u & -> & _)]; apply incl_refl.
  - destruct (create_job_effect db s req)
      as [-> | (cu & job & _ & -> & _)]; apply incl_refl.
  - destruct (apply_effect secure_filename db s j req t)
      as [-> | (cu & job & a & saved & _ & _ & _ & -> & _ & _ & _ & Hs & _)];
      [apply incl_refl | exact Hs].
  - destruct (edit_job_effect db s j req)
      as [-> | (cu & job & job' & _ & _ & _ & -> & _)]; apply incl_refl.
  - destruct (delete_job_effect db s j) as [-> | (cu & job & _ & _ & _ & ->)];
      [|rewrite uploads_session_delete_job]; apply incl_refl.
  - destruct (admin_delete_user_effect db s u)
      as [-> | (cu & v & _ & _ & _ & _ & ->)];
      [|rewrite uploads_session_delete_user]; apply incl_refl.
  - destruct (admin_delete_job_effect db s j)
      as [-> | (cu & job & _ & _ & _ & ->)];
      [|rewrite uploads_session_delete_job]; apply incl_refl.
Qed.

Lemma resumes_stored_fewer (db db' : Db) (q : Application.t -> bool) :
  applications db' = filter q (applications db) ->
  uploads db' = uploads db ->
  resumes_stored db -> resumes_stored db'.
Proof.
  unfold resumes_stored. intros -> -> H.
  rewrite Forall_forall in *. intros a Hin. apply filter_In in Hin.
  now apply H.
Qed.

Lemma resumes_stored_run (db : Db) (a : action) :
  keys_unique db -> resumes_stored db -> resumes_stored (run db a).
Proof.
  intros Hk Hr.
  destruct a as [mail pwd t| s req | s req | s j req t
                 | s j req | s j | s u | s j]; simpl.
  - destruct (bootstrap_effect generate_password_hash mail pwd t db)
      as [(admin & _ & ->) | (u & -> & _)]; exact Hr.
  - destruct (register_effect generate_password_hash db s req)
      as [-> | (u & -> & _)]; exact Hr.
  - destruct (create_job_effect db s req)
      as [-> | (cu & job & _ & -> & _)]; exact Hr.
  - destruct (apply_effect secure_filename db s j req t)
      as [-> | (cu & job & a & saved & _ & _ & _ & -> & _ & _ & _ & Hs & Hf)];
      [exact Hr|].
    unfold resumes_stored in *. simpl. apply Forall_app. split.
    + eapply Forall_impl; [|exact Hr]. simpl. intros b Hb f Hbf.
      apply Hs. now apply Hb.
    + constructor; [exact Hf | constructor].
  - destruct (edit_job_effect db s j req)
      as [-> | (cu & job & job' & _ & _ & _ & -> & _)]; exact Hr.
  - destruct (delete_job_effect db s j) as [-> | (cu & job & _ & _ & _ & ->)];
      [exact Hr|].
    eapply resumes_stored_fewer; [| |exact Hr].
    + rewrite session_delete_job_eq by apply Hk. reflexivity.
    + apply uploads_session_delete_job.
  - destruct (admin_delete_user_effect db s u)
      as [-> | (cu & v & _ & _ & _ & _ & ->)]; [exact Hr|].
    eapply resumes_stored_fewer; [| |exact Hr].
    + rewrite session_delete_user_eq by assumption. reflexivity.
    + apply uploads_session_delete_user.
  - destruct (admin_delete_job_effect db s j)
      as [-> | (cu & job & _ & _ & _ & ->)]; [exact Hr|].
    eapply resumes_stored_fewer; [| |exact Hr].
    + rewrite session_delete_job_eq by apply Hk. reflexivity.
    + apply uploads_session_delete_job.
Qed.

(** *** Trimmed job columns *)

Lemma jobs_trimmed_run (db : Db) (a : action) :
  jobs_trimmed db -> jobs_trimmed (run db a).
Proof.
  unfold jobs_trimmed. intros Ht.
  assert (Hfilter : forall q, Forall job_trimmed (filter q (jobs db))).
  { intros q. rewrite Forall_forall in *. intros k Hin.
    apply filter_In in Hin. now apply Ht. }
  destruct a as [mail pwd t| s req | s req | s j req t
                 | s j req | s j | s u | s j]; simpl.
  - destruct (bootstrap_effect generate_password_hash mail pwd t db)
      as [(admin & _ & ->) | (u & -> & _)]; exact Ht.
  - destruct (register_effect generate_password_hash db s req)
      as [-> | (u & -> & _)]; exact Ht.
  - destruct (create_job_effect db s req)
      as [-> | (cu & job & _ & -> & _ & _ & _ & _ & Hjob)]; [exact Ht|].
    simpl. apply Forall_app. split; [exact Ht|].
    constructor; [exact Hjob | constructor].
  - destruct (apply_effect secure_filename db s j req t)
      as [-> | (cu & job & a & saved & _ & _ & _ & -> & _)]; exact Ht.
  - destruct (edit_job_effect db s j req)
      as [-> | (cu & job & job' & _ & _ & _ & -> & _ & _ & _ & Hjob)];
      [exact Ht|].
    simpl. apply Forall_map. eapply Forall_impl; [|exact Ht].
    simpl. intros k Hk. now destruct (Job.id k =? Job.id job).
  - destruct (delete_job_effect db s j) as [-> | (cu & job & _ & _ & _ & ->)];
      [exact Ht|].
    unfold session_delete_job. rewrite delete_rows. simpl. apply Hfilter.
  - destruct (admin_delete_user_effect db s u)
      as [-> | (cu & v & _ & _ & _ & _ & ->)]; [exact Ht|].
    unfold session_delete_user. rewrite delete_rows. simpl.
    generalize (posted_jobs db v). intros js.
    assert (Hgen : forall js db0, Forall job_trimmed (jobs db0) ->
              Forall job_trimmed (jobs (fold_left session_delete_job js db0))).
    { clear. induction js as [| k js IH]; intros db0 H0; simpl; [exact H0|].
      apply IH. unfold session_delete_job. rewrite delete_rows. simpl.
      rewrite Forall_forall in *. intros x Hx. apply filter_In in Hx.
      now apply H0. }
    now apply Hgen.
  - destruct (admin_delete_job_effect db s j)
      as [-> | (cu & job & _ & _ & _ & ->)]; [exact Ht|].
    unfold session_delete_job. rewrite delete_rows. simpl. apply Hfilter.
Qed.

(** *** All of them, in every reachable database *)

Lemma reachable_invariants (db : Db) :
  reachable db ->
  keys_unique db /\ refs_ok db /\ one_application_per_pair db
  /\ emails_unique db /\ resumes_stored db /\ jobs_trimmed db.
Proof.
  induction 1 as [| db a Hr (Hk & Hf & Ho & He & Hs & Ht)].
  - split; [repeat split; constructor|].
    split; [split; constructor|].
    split; [intros jid uid; apply Nat.le_0_l|].
    split; [constructor|]. split; constructor.
  - split; [now apply keys_unique_run|].
    split; [now apply refs_ok_run|].
    split; [now apply one_application_run|].
    split; [now apply emails_unique_run|].
    split; [now apply resumes_stored_run | now apply jobs_trimmed_run].
Qed.

End Invariants.

(* ================================================================== *)
(** ** Guarantees over every history of requests *)
(* ================================================================== *)

Section Histories.

Variable generate_password_hash : text -> text.
Variable secure_filename : text -> text.

Local Abbreviation run := (run generate_password_hash secure_filename).
Local Abbreviation reachable :=
  (reachable generate_password_hash secure_filename).

Lemma reachable_replay (history : list action) (db : Db) :
  reachable db -> reachable (fold_left run history db).
Proof.
  revert db. induction history as [| a history IH]; intros db Hr; simpl.
  - exact Hr.
  - apply IH. now constructor.
Qed.

(** X1.  Whatever requests and restarts came before, every job is
    posted by a user that exists, and every application belongs to a
    user and to a job that exist; the ids of each table are pairwise
    distinct. *)
Theorem references_never_dangle (db : Db) :
  reachable db -> keys_unique db /\ refs_ok db.
Proof.
  intros Hr.
  destruct (reachable_invariants generate_password_hash secure_filename
              db Hr) as (Hk & Hf & _).
  now split.
Qed.

(** X2.  Whatever requests and restarts came before, no user has more
    than one application for the same job. *)
Theorem never_two_applications (db : Db) (jid uid : Z) :
  reachable db -> (application_count db jid uid <= 1)%nat.
Proof.
  intros Hr.
  destruct (reachable_invariants generate_password_hash secure_filename
              db Hr) as (_ & _ & Ho & _).
  apply Ho.
Qed.

(** X3.  Whatever requests and restarts came before, no two users have
    the same stored email, so the UNIQUE constraint of the column is
    never violated by a commit. *)
Theorem emails_stay_unique (db : Db) :
  reachable db -> emails_unique db.
Proof.
  intros Hr.
  now destruct (reachable_invariants generate_password_hash secure_filename
                  db Hr) as (_ & _ & _ & He & _).
Qed.

(** X4.  No request removes a file from the upload folder, not even the
    deletion of the application, the job or the user it belongs to; and
    in every reachable database the resume an application names is a
    file of the folder. *)
Theorem resumes_are_kept (db : Db) (a : action) :
  incl (uploads db) (uploads (run db a))
  /\ (reachable db -> resumes_stored db).
Proof.
  split; [apply uploads_run|].
  intros Hr.
  now destruct (reachable_invariants generate_password_hash secure_filename
                  db Hr) as (_ & _ & _ & _ & Hs & _).
Qed.

(** X5.  No request creates an admin or promotes a user: a user who is
    an admin after a request was the same admin before it.  Only the
    start-up block sets the admin flag. *)
Theorem requests_make_no_admin (db : Db) (a : action) (u : User.t) :
  (forall mail pwd t, a <> start mail pwd t) ->
  In u (users (run db a)) -> User.is_admin u = true -> In u (users db).
Proof.
  intros Hreq Hin Hadm.
  destruct a as [mail pwd t| s req | s req | s j req t
                 | s j req | s j | s k | s j]; simpl in Hin.
  - now destruct (Hreq mail pwd t).
  - destruct (register_effect generate_password_hash db s req)
      as [Heq | (v & Heq & _ & Hv & _)]; rewrite Heq in Hin; [exact Hin|].
    simpl in Hin. apply in_app_or in Hin.
    destruct Hin as [Hin | [<- | []]]; [exact Hin | congruence].
  - destruct (create_job_effect db s req)
      as [Heq | (cu & job & _ & Heq & _)]; now rewrite Heq in Hin.
  - destruct (apply_effect secure_filename db s j req t)
      as [Heq | (cu & job & b & saved & _ & _ & _ & Heq & _)];
      now rewrite Heq in Hin.
  - destruct (edit_job_effect db s j req)
      as [Heq | (cu & job & job' & _ & _ & _ & Heq & _)];
      now rewrite Heq in Hin.
  - destruct (delete_job_effect db s j)
      as [Heq | (cu & job & _ & _ & _ & Heq)]; rewrite Heq in Hin;
      [exact Hin|].
    unfold session_delete_job in Hin. now rewrite delete_rows in Hin.
  - destruct (admin_delete_user_effect db s k)
      as [Heq | (cu & v & _ & _ & _ & _ & Heq)]; rewrite Heq in Hin;
      [exact Hin|].
    rewrite users_session_delete_user in Hin.
    now apply filter_In in Hin.
  - destruct (admin_delete_job_effect db s j)
      as [Heq | (cu & job & _ & _ & _ & Heq)]; rewrite Heq in Hin;
      [exact Hin|].
    unfold session_delete_job in Hin. now rewrite delete_rows in Hin.
Qed.

End Histories.

(* ================================================================== *)
(** ** Who may do what *)
(* ================================================================== *)

Section Authorisation.

Variable secure_filename : text -> text.

(** X6.  Without a logged-in user, every route behind [@login_required]
    answers with the redirect to the login page and writes nothing;
    [logout] is one of them. *)
Theorem anonymous_cannot_write (db : Db) (s : session) :
  current_user db s = None ->
  (forall req, create_job db s req = (LoginRequired, db))
  /\ (forall j req t, apply secure_filename db s j req t = (LoginRequired, db))
  /\ (forall j req, edit_job db s j req = (LoginRequired, db))
  /\ (forall j, delete_job db s j = (LoginRequired, db))
  /\ (forall k, admin_delete_user db s k = (LoginRequired, db))
  /\ (forall j, admin_delete_job db s j = (LoginRequired, db))
  /\ dashboard db s = inl LoginRequired
  /\ (forall f, uploaded_resume db s f = inl LoginRequired)
  /\ admin_index db s = inl LoginRequired
  /\ admin_users db s = inl LoginRequired
  /\ admin_jobs db s = inl LoginRequired
  /\ logout db s = (AuthLoginRequired, s).
Proof.
  intros Hcu.
  unfold create_job, apply, edit_job, delete_job, admin_delete_user,
    admin_delete_job, dashboard, uploaded_resume, admin_index, admin_users,
    admin_jobs, admin_gate, logout.
  rewrite Hcu. repeat split.
Qed.

(** X7.  A job is changed or deleted through [edit_job] and [delete_job]
    only by its poster or by an admin: anybody else gets the Forbidden
    message and the database stays as it is, and whenever one of the two
    routes does change the database the current user is the poster of
    that job or an admin. *)
Theorem job_writes_are_authorised (db : Db) (s : session) (jid : Z)
  (req : Request) :
  (forall cu job,
     current_user db s = Some cu -> get_job db jid = Some job ->
     Job.posted_by_id job <> User.id cu -> User.is_admin cu = false ->
     edit_job db s jid req
     = (Redirect (Some edit_not_allowed) (job_detail_ep jid), db)
     /\ delete_job db s jid
        = (Redirect (Some delete_not_allowed) (job_detail_ep jid), db))
  /\
  (snd (edit_job db s jid req) <> db \/ snd (delete_job db s jid) <> db ->
   exists cu job,
     current_user db s = Some cu /\ get_job db jid = Some job
     /\ (Job.posted_by_id job = User.id cu \/ User.is_admin cu = true)).
Proof.
  split.
  - intros cu job Hcu Hj Hp Ha. unfold edit_job, delete_job.
    rewrite Hcu, Hj. destruct (get_job_id _ _ _ Hj) as [_ ->].
    apply Z.eqb_neq in Hp. now rewrite Hp, Ha.
  - intros [H|H].
    + destruct (edit_job_effect db s jid req)
        as [Heq | (cu & job & job' & Hcu & Hj & Hauth & _)];
        [congruence | now exists cu, job].
    + destruct (delete_job_effect db s jid)
        as [Heq | (cu & job & Hcu & Hj & Hauth & _)];
        [congruence | now exists cu, job].
Qed.

(** X8.  The admin console is closed to everybody else: a logged-in user
    without the admin flag gets 403 from each admin route, and the two
    deleting routes leave the database as it is. *)
Theorem admin_routes_need_admin (db : Db) (s : session) (cu : User.t) :
  current_user db s = Some cu -> User.is_admin cu = false ->
  (forall k, admin_delete_user db s k = (Abort 403, db))
  /\ (forall j, admin_delete_job db s j = (Abort 403, db))
  /\ admin_index db s = inl (Abort 403)
  /\ admin_users db s = inl (Abort 403)
  /\ admin_jobs db s = inl (Abort 403)
  /\ outcome_of (Abort 403) = Forbidden.
Proof.
  intros Hcu Ha.
  unfold admin_delete_user, admin_delete_job, admin_index, admin_users,
    admin_jobs, admin_gate.
  rewrite Hcu, Ha. repeat split.
Qed.

End Authorisation.

(* ================================================================== *)
(** ** Accounts and sessions *)
(* ================================================================== *)

Section Accounts.

Variable generate_password_hash : text -> text.
Variable check_password_hash : text -> text -> bool.

(** What [werkzeug] promises of the two functions: a hash accepts the
    password it was made from. *)
Hypothesis check_generate :
  forall pwd, check_password_hash (generate_password_hash pwd) pwd = true.

Lemma find_after_others {A : Type} (p : A -> bool) (l : list A) (x : A) :
  (forall y, In y l -> p y = false) -> p x = true ->
  find p (l ++ [x]) = Some x.
Proof.
  intros Hl Hx. induction l as [| y l IH]; simpl.
  - now rewrite Hx.
  - rewrite (Hl y) by now left. apply IH. intros z Hz. apply Hl. now right.
Qed.

Lemma find_before_new {A : Type} (p : A -> bool) (l : list A) (x y : A) :
  find p l = Some y -> find p (l ++ [x]) = Some y.
Proof.
  induction l as [| z l IH]; simpl; [discriminate|].
  destruct (p z); [auto | exact IH].
Qed.

Lemma get_new_user (l : list User.t) (u : User.t) :
  User.id u = next_id (map User.id l) ->
  find (fun v => User.id v =? User.id u) (l ++ [u]) = Some u.
Proof.
  intros Hid. apply find_after_others; [|apply Z.eqb_refl].
  intros y Hy. apply Z.eqb_neq. intros Heq.
  apply (next_id_fresh User.id l). rewrite <- Hid, <- Heq. now apply in_map.
Qed.

(** X9.  A registration that succeeds logs the new user in: the session
    it returns is that of the user just stored, who is not an admin and
    is an employer exactly when the form carried is_employer=on; the
    stored hash is the one made from the form's password. *)
Theorem register_logs_in (db db' : Db) (s s' : session) (req : Request)
  (target : endpoint) :
  register generate_password_hash db s req
  = (Redirect (Some registered) target, db', s') ->
  exists u,
    current_user db' s' = Some u
    /\ users db' = users db ++ [u]
    /\ get_user db (User.id u) = None
    /\ User.is_admin u = false
    /\ (User.is_employer u = true
        <-> get (form req) "is_employer" = Some (str "on"))
    /\ User.password_hash u
       = generate_password_hash (get_or (form req) "password" [])
    /\ User.created_at u = now req.
Proof.
  unfold register.
  destruct (current_user db s); [discriminate|].
  destruct (method req); [discriminate|].
  destruct (get (form req) "email") as [e|]; [|discriminate].
  destruct (_ || _)%bool; [discriminate|].
  destruct (negb _); [discriminate|].
  destruct (find _ (users db)); [discriminate|].
  intros [= <- <- <-]. eexists. split; [|split; [reflexivity|]].
  - simpl. unfold get_user. simpl.
    exact (get_new_user (users db) (User.mk _ _ _ _ _ _ _) eq_refl).
  - simpl. split.
    { unfold get_user. destruct (find _ (users db)) as [v|] eqn:Hv;
        [|reflexivity].
      exfalso. apply (find_key_In User.id) in Hv. destruct Hv as [Hin Hid].
      apply (next_id_fresh User.id (users db)). rewrite <- Hid.
      now apply in_map. }
    split; [reflexivity|]. split; [|split; reflexivity].
    destruct (get (form req) "is_employer") as [v|]; [|split; discriminate].
    rewrite text_eqb_eq. split; [now intros -> | now intros [= ->]].
Qed.

(** X10.  After a registration, the same email in any letter case and
    with blanks around it, together with the same password, logs in as
    the user just registered.  The answer redirects to the URL of the
    query parameter [next] when there is one, whatever it is, and to the
    index otherwise. *)
Theorem register_then_login (db db' : Db) (s s' : session) (req : Request)
  (target : endpoint) (e : text) (req2 : Request) (s2 : session) :
  register generate_password_hash db s req
  = (Redirect (Some registered) target, db', s') ->
  get (form req) "email" = Some e ->
  current_user db' s2 = None ->
  method req2 = POST ->
  py_lower (strip (get_or (form req2) "email" [])) = py_lower (strip e) ->
  get_or (form req2) "password" [] = get_or (form req) "password" [] ->
  login check_password_hash db' s2 req2
  = (match get (args req2) "next" with
     | Some (c :: n) => RedirectNext (Some logged_in) (c :: n)
     | _ => AuthRedirect (Some logged_in) index_ep
     end, s').
Proof.
  unfold register.
  destruct (current_user db s); [discriminate|].
  destruct (method req); [discriminate|].
  destruct (get (form req) "email") as [e0|]; [|discriminate].
  destruct (_ || _)%bool; [discriminate|].
  destruct (negb _); [discriminate|].
  destruct (find _ (users db)) eqn:Hnone; [discriminate|].
  intros [= <- <- <-] [= <-] Hanon Hm Hmail Hpwd.
  unfold login. rewrite Hanon, Hm, Hmail, Hpwd. simpl users.
  rewrite find_after_others.
  - simpl. now rewrite check_generate.
  - intros y Hy. exact (find_none _ _ Hnone y Hy).
  - simpl. apply text_eqb_refl.
Qed.

(** X11.  [login] starts a session only for a stored user whose email
    is the trimmed, lower-cased email of the form and whose hash accepts
    the form's password.  In every other case the session stays as it
    was and, for a form sent by an anonymous client, the answer is the
    "Invalid credentials." message. *)
Theorem login_needs_credentials (db : Db) (s : session) (req : Request) :
  (logs_in (fst (login check_password_hash db s req)) = true
   \/ snd (login check_password_hash db s req) <> s ->
   exists u,
     In u (users db)
     /\ User.email u = py_lower (strip (get_or (form req) "email" []))
     /\ check_password_hash (User.password_hash u)
                            (get_or (form req) "password" []) = true
     /\ snd (login check_password_hash db s req) = Some (User.id u))
  /\
  (current_user db s = None -> method req = POST ->
   (forall u,
      In u (users db) ->
      User.email u = py_lower (strip (get_or (form req) "email" [])) ->
      check_password_hash (User.password_hash u)
                          (get_or (form req) "password" []) = false) ->
   login check_password_hash db s req
   = (AuthRedirect (Some invalid_credentials) login_ep, s)).
Proof.
  unfold login. split.
  - destruct (current_user db s); [simpl; intros [H|H]; congruence|].
    destruct (method req); [simpl; intros [H|H]; congruence|].
    destruct (find _ (users db)) as [u|] eqn:Hu;
      [|simpl; intros [H|H]; congruence].
    destruct (check_password_hash _ _) eqn:Hc;
      [|simpl; intros [H|H]; congruence].
    intros _. apply find_some in Hu. destruct Hu as [Hin He].
    apply text_eqb_eq in He. exists u. now repeat split.
  - intros Hcu Hm Hall. rewrite Hcu, Hm.
    destruct (find _ (users db)) as [u|] eqn:Hu; [|reflexivity].
    apply find_some in Hu. destruct Hu as [Hin He].
    apply text_eqb_eq in He. now rewrite (Hall u Hin He).
Qed.

(** X12.  The start-up block leaves a user with the configured email who
    is admin and employer, touches no job, application or file, and is
    idempotent: running it again, even with another password, changes
    nothing, so the stored password of an existing admin is kept. *)
Theorem bootstrap_idempotent (mail pwd : text) (t : Z) (db : Db) :
  let db' := bootstrap generate_password_hash mail pwd t db in
  (exists u, In u (users db') /\ User.email u = mail
             /\ User.is_admin u = true /\ User.is_employer u = true)
  /\ jobs db' = jobs db /\ applications db' = applications db
  /\ uploads db' = uploads db
  /\ forall pwd2 t2, bootstrap generate_password_hash mail pwd2 t2 db' = db'.
Proof.
  cbv zeta.
  destruct (bootstrap_effect generate_password_hash mail pwd t db)
    as [(admin & Hf & ->) | (u & -> & Hid & Hmail & Hadm & Hemp & Hnew)].
  - split; [|repeat split].
    + exists (User.mk (User.id admin) (User.fullname admin) (User.email admin)
                      (User.password_hash admin) true true
                      (User.created_at admin)).
      apply find_some in Hf. destruct Hf as [Hin He].
      apply text_eqb_eq in He. simpl. repeat split; try assumption.
      apply in_map_iff. exists admin. now rewrite Z.eqb_refl.
    + intros pwd2 t2. unfold bootstrap. cbn [users jobs applications uploads].
      set (f := fun u : User.t =>
                  if User.id u =? User.id admin
                  then User.mk (User.id u) (User.fullname u) (User.email u)
                               (User.password_hash u) true true
                               (User.created_at u)
                  else u).
      assert (Hfind : find (fun u => text_eqb (User.email u) mail)
                           (map f (users db)) = Some (f admin)).
      { clear -Hf. induction (users db) as [| x l IH]; simpl in *;
          [discriminate|].
        assert (Hx : User.email (f x) = User.email x)
          by (unfold f; now destruct (User.id x =? User.id admin)).
        rewrite Hx. destruct (text_eqb (User.email x) mail).
        - now injection Hf as ->.
        - now apply IH. }
      rewrite Hfind. f_equal. rewrite map_map.
      apply map_ext. intros x. unfold f.
      rewrite Z.eqb_refl. cbn [User.id].
      destruct (User.id x =? User.id admin) eqn:Hx; cbn [User.id];
        now rewrite Hx.
  - split; [|repeat split].
    + exists u. split; [apply in_or_app; right; now left|]. now repeat split.
    + intros pwd2 t2. unfold bootstrap. cbn [users jobs applications uploads].
      rewrite find_after_others.
      * f_equal. rewrite map_app. simpl map. rewrite Z.eqb_refl.
        f_equal.
        -- rewrite <- (map_id (users db)) at 2.
           apply map_ext_in. intros x Hx.
           destruct (Z.eqb_spec (User.id x) (User.id u)) as [Heq|];
             [|reflexivity].
           exfalso. apply (next_id_fresh User.id (users db)).
           rewrite <- Hid, <- Heq. now apply in_map.
        -- destruct u. simpl in *. now subst.
      * intros y Hy. destruct (text_eqb (User.email y) mail) eqn:Hy2;
          [|reflexivity].
        exfalso. apply Hnew. apply text_eqb_eq in Hy2.
        rewrite Hmail, <- Hy2. now apply in_map.
      * rewrite Hmail. apply text_eqb_refl.
Qed.

End Accounts.

(* ================================================================== *)
(** ** What the pages show *)
(* ================================================================== *)

Section Pages.

Variable secure_filename : text -> text.

Lemma insert_by_desc_perm {A : Type} (key : A -> Z) (x : A) (l : list A) :
  Permutation (insert_by_desc key x l) (x :: l).
Proof.
  induction l as [| y l IH]; simpl; [reflexivity|].
  destruct (key x <? key y); [|reflexivity].
  rewrite IH. apply perm_swap.
Qed.

Lemma order_by_desc_perm {A : Type} (key : A -> Z) (l : list A) :
  Permutation (order_by_desc key l) l.
Proof.
  induction l as [| x l IH]; simpl; [reflexivity|].
  rewrite insert_by_desc_perm. now apply perm_skip.
Qed.

Lemma order_by_desc_sorted {A : Type} (key : A -> Z) (l : list A) :
  newest_first_by key (order_by_desc key l).
Proof.
  unfold newest_first_by.
  induction l as [| x l IH]; simpl; [constructor|].
  induction IH as [| y m Hs IHm Hy]; simpl; [repeat constructor|].
  destruct (Z.ltb_spec (key x) (key y)) as [Hlt|Hge].
  - constructor; [exact IHm|].
    apply Forall_forall. intros z Hz.
    apply (Permutation_in _ (insert_by_desc_perm key x m)) in Hz.
    destruct Hz as [<-|Hz]; [lia|].
    rewrite Forall_forall in Hy. now apply Hy.
  - constructor; [now constructor|].
    constructor; [lia|].
    eapply Forall_impl; [|exact Hy]. simpl. intros z Hz. lia.
Qed.

(** X13.  [job_detail] and [apply] agree on who has applied: for a
    logged-in user and a job that exists, the page says "applied"
    exactly when [apply] answers "already applied", and after an
    application is accepted the page says "applied". *)
Theorem job_detail_applied (db : Db) (s : session) (jid : Z) (cu : User.t)
  (job : Job.t) (req : Request) (inserted_at : Z) :
  current_user db s = Some cu -> get_job db jid = Some job ->
  (job_detail db s jid = inr (mkJobDetailPage job true)
   <-> apply secure_filename db s jid req inserted_at
       = (Redirect (Some already_applied) (job_detail_ep jid), db))
  /\ (job_detail db s jid = inr (mkJobDetailPage job true)
      \/ job_detail db s jid = inr (mkJobDetailPage job false))
  /\ (forall target db',
        apply secure_filename db s jid req inserted_at
        = (Redirect (Some application_submitted) target, db') ->
        job_detail db s jid = inr (mkJobDetailPage job false)
        /\ job_detail db' s jid = inr (mkJobDetailPage job true)).
Proof.
  intros Hcu Hj. destruct (get_job_id _ _ _ Hj) as [_ Hid].
  assert (Hpage : forall d, current_user d s = Some cu ->
            get_job d jid = Some job ->
            job_detail d s jid
            = inr (mkJobDetailPage job
                     match applications_of d jid (User.id cu) with
                     | _ :: _ => true
                     | [] => false
                     end)).
  { intros d H1 H2. unfold job_detail. now rewrite H2, H1, Hid. }
  rewrite (Hpage db Hcu Hj). split; [|split].
  - split.
    + intros H. apply apply_again with (cu := cu) (job := job); auto.
      destruct (applications_of db jid (User.id cu)); [discriminate H|].
      discriminate.
    + unfold apply. rewrite Hcu, Hj, Hid.
      destruct (applications_of db jid (User.id cu)); [|reflexivity].
      destruct (method req); [discriminate|].
      destruct (get (files req) "resume") as [[| c n]|]; try discriminate.
      destruct (allowed_file (c :: n)); discriminate.
  - destruct (applications_of db jid (User.id cu)); auto.
  - intros target db' Hrun. apply apply_submitted in Hrun.
    destruct Hrun as (cu' & job' & a & Hcu' & Hj' & Hnone & Ha & Hja & _
                      & Hu & Hjobs & Happs).
    rewrite Hcu in Hcu'. injection Hcu' as <-.
    rewrite Hnone. split; [reflexivity|].
    rewrite (Hpage db').
    + unfold applications_of in *. rewrite Happs, filter_app, Hnone. simpl.
      now rewrite Hja, Ha, !Z.eqb_refl.
    + destruct s as [uid|]; [|discriminate]. simpl in *.
      unfold get_user in *. now rewrite Hu.
    + unfold get_job in *. now rewrite Hjobs.
Qed.

Lemma index_unfiltered (db : Db) (req : Request) :
  no_filters req ->
  page_jobs (index db req) = order_by_created_at_desc (jobs db).
Proof.
  intros (Hq & Hc & Hl & Ht). unfold index, get_or.
  rewrite Hq, Hc, Hl, Ht, strip_nil. simpl. unfold index_filter. simpl.
  now rewrite filter_all.
Qed.

Lemma newest_is_first (l : list Job.t) (job : Job.t) :
  newest_first l -> In job l ->
  (forall k, In k l -> k <> job -> Job.created_at k < Job.created_at job) ->
  exists rest, l = job :: rest.
Proof.
  intros Hs Hin Hmax. destruct l as [| h rest]; [destruct Hin|].
  exists rest. f_equal.
  destruct Hin as [Hh | Hin]; [exact Hh|].
  inversion Hs as [| ? ? _ Hall]; subst.
  rewrite Forall_forall in Hall. specialize (Hall job Hin).
  destruct (Z.eq_dec (Job.created_at h) (Job.created_at job)) as [Heq|Hne].
  - assert (Hdec : {h = job} + {h <> job}).
    { repeat decide equality. }
    destruct Hdec as [->|Hd]; [reflexivity|].
    specialize (Hmax h (or_introl eq_refl) Hd). lia.
  - assert (Hd : h <> job) by congruence.
    specialize (Hmax h (or_introl eq_refl) Hd). lia.
Qed.

(** X14.  A job that was just posted can be looked up under the id of
    the redirect and shows in the unfiltered listing; when it is newer
    than every job stored before, it is the first entry of that
    listing. *)
Theorem posted_job_is_listed (db db' : Db) (s : session) (req : Request)
  (jid : Z) (req2 : Request) :
  create_job db s req
  = (Redirect (Some job_posted) (job_detail_ep jid), db') ->
  no_filters req2 ->
  exists job,
    get_job db' jid = Some job
    /\ get_job db jid = None
    /\ Job.created_at job = now req
    /\ In job (page_jobs (index db' req2))
    /\ ((forall k, In k (jobs db) -> Job.created_at k < now req) ->
        exists rest, page_jobs (index db' req2) = job :: rest).
Proof.
  unfold create_job.
  destruct (current_user db s) as [cu|]; [|discriminate].
  destruct (negb _); [discriminate|].
  destruct (method req); [discriminate|].
  destruct (_ || _)%bool; [discriminate|].
  intros [= <- <-] Hnf.
  pose (job := Job.mk (next_id (map Job.id (jobs db)))
                 (strip (get_or (form req) "job_title" []))
                 (strip (get_or (form req) "company" []))
                 (strip (get_or (form req) "salary" []))
                 (strip (get_or (form req) "description" []))
                 (strip (get_or (form req) "location" []))
                 (strip (get_or (form req) "job_type" []))
                 (now req) (User.id cu)).
  exists job. fold job. simpl Job.id.
  assert (Hfresh : forall k, In k (jobs db) ->
            (Job.id k =? next_id (map Job.id (jobs db))) = false).
  { intros k Hk. apply Z.eqb_neq. intros Heq.
    apply (next_id_fresh Job.id (jobs db)). rewrite <- Heq.
    now apply in_map. }
  assert (Hin : In job (order_by_created_at_desc (jobs db ++ [job]))).
  { apply (Permutation_in _ (Permutation_sym (order_by_perm _))).
    apply in_or_app. right. now left. }
  split; [|split; [|split; [reflexivity|]]].
  - unfold get_job. simpl. apply find_after_others.
    + exact Hfresh.
    + apply Z.eqb_refl.
  - unfold get_job. destruct (find _ (jobs db)) as [k|] eqn:Hk;
      [|reflexivity].
    apply find_some in Hk. destruct Hk as [Hk Hid].
    rewrite (Hfresh k Hk) in Hid. discriminate.
  - rewrite index_unfiltered by assumption. simpl jobs.
    split; [exact Hin|].
    intros Hnew. apply newest_is_first; [apply order_by_sorted | exact Hin|].
    intros k Hk Hne.
    apply (Permutation_in _ (order_by_perm _)) in Hk.
    apply in_app_or in Hk. destruct Hk as [Hk | [Hk | []]].
    + simpl. now apply Hnew.
    + congruence.
Qed.

End Pages.

(* ================================================================== *)
(** ** After a deletion, after an update *)
(* ================================================================== *)

Section Afterwards.

Variable generate_password_hash : text -> text.
Variable secure_filename : text -> text.
Variable check_password_hash : text -> text -> bool.

Lemma jobs_session_delete_job (db : Db) (j : Job.t) :
  jobs (session_delete_job db j)
  = filter (fun k => negb (Job.id k =? Job.id j)) (jobs db).
Proof. unfold session_delete_job. now rewrite delete_rows. Qed.

(** X15.  Once a job is deleted, by its poster or by an admin, its id
    leads nowhere: the detail page is 404, and applying to it, editing
    it and deleting it again are answered with 404 and change
    nothing. *)
Theorem deleted_job_is_gone (db db' : Db) (s : session) (jid : Z)
  (target : endpoint) :
  delete_job db s jid = (Redirect (Some job_deleted) target, db')
  \/ admin_delete_job db s jid = (Redirect (Some job_deleted) target, db') ->
  get_job db' jid = None
  /\ (forall s2, job_detail db' s2 jid = inl (Abort 404))
  /\ (forall s2 cu req t,
        current_user db' s2 = Some cu ->
        apply secure_filename db' s2 jid req t = (Abort 404, db')
        /\ edit_job db' s2 jid req = (Abort 404, db')
        /\ delete_job db' s2 jid = (Abort 404, db')).
Proof.
  intros Hdel.
  assert (Hgone : get_job db' jid = None).
  { destruct Hdel as [Hdel | Hdel].
    - unfold delete_job in Hdel.
      destruct (current_user db s) as [cu|]; [|discriminate].
      destruct (get_job db jid) as [job|] eqn:Hj; [|discriminate].
      destruct (_ && _)%bool; [discriminate|].
      injection Hdel as _ <-. destruct (get_job_id _ _ _ Hj) as [_ Hid].
      unfold get_job. rewrite jobs_session_delete_job.
      apply find_filter_none. intros k Hk. rewrite Hid. now rewrite Hk.
    - unfold admin_delete_job in Hdel.
      destruct (current_user db s) as [cu|]; [|discriminate].
      destruct (negb _); [discriminate|].
      destruct (get_job db jid) as [job|] eqn:Hj; [|discriminate].
      injection Hdel as _ <-. destruct (get_job_id _ _ _ Hj) as [_ Hid].
      unfold get_job. rewrite jobs_session_delete_job.
      apply find_filter_none. intros k Hk. rewrite Hid. now rewrite Hk. }
  split; [exact Hgone|]. split.
  - intros s2. unfold job_detail. now rewrite Hgone.
  - intros s2 cu req t Hcu. unfold apply, edit_job, delete_job.
    now rewrite Hcu, Hgone.
Qed.

Lemma email_unique (l : list User.t) (a b : User.t) :
  NoDup (map User.email l) -> In a l -> In b l ->
  User.email a = User.email b -> a = b.
Proof.
  induction l as [| x l IH]; simpl; [tauto|].
  intros Hnd Ha Hb He. apply NoDup_cons_iff in Hnd. destruct Hnd as [Hx Hl].
  destruct Ha as [->|Ha], Hb as [->|Hb]; auto; exfalso; apply Hx.
  - rewrite He. now apply in_map.
  - rewrite <- He. now apply in_map.
Qed.

Lemma find_filter_none_in {A : Type} (p q : A -> bool) (l : list A) :
  (forall x, In x l -> p x = true -> q x = false) ->
  find p (filter q l) = None.
Proof.
  intros H. induction l as [| x l IH]; simpl; [reflexivity|].
  assert (IH' : find p (filter q l) = None).
  { apply IH. intros y Hy. apply H. now right. }
  destruct (q x) eqn:Hq; simpl; [|exact IH'].
  destruct (p x) eqn:Hp; [|exact IH'].
  rewrite (H x (or_introl eq_refl) Hp) in Hq. discriminate.
Qed.

(** X16.  A user deleted by an admin is locked out: the session cookie
    that carries the user's id is that of nobody, and logging in with
    the user's email is answered with "Invalid credentials.", whatever
    the password.  (Emails are unique in every reachable database.) *)
Theorem deleted_user_is_locked_out (db db' : Db) (s : session) (uid : Z)
  (target : endpoint) :
  emails_unique db ->
  admin_delete_user db s uid = (Redirect (Some user_deleted) target, db') ->
  exists u,
    get_user db uid = Some u
    /\ current_user db' (Some uid) = None
    /\ forall s2 req,
         current_user db' s2 = None -> method req = POST ->
         py_lower (strip (get_or (form req) "email" [])) = User.email u ->
         login check_password_hash db' s2 req
         = (AuthRedirect (Some invalid_credentials) login_ep, s2).
Proof.
  intros He. unfold admin_delete_user.
  destruct (current_user db s) as [cu|]; [|discriminate].
  destruct (negb _); [discriminate|].
  destruct (get_user db uid) as [u|] eqn:Hu; [|discriminate].
  destruct (User.id u =? User.id cu); [discriminate|].
  intros [= _ <-]. exists u. split; [reflexivity|].
  destruct (get_user_id _ _ _ Hu) as [Hin Hid]. split.
  - simpl. unfold get_user. rewrite users_session_delete_user.
    apply find_filter_none. intros x Hx. rewrite Hid. now rewrite Hx.
  - intros s2 req Hanon Hm Hmail. unfold login.
    rewrite Hanon, Hm, Hmail, users_session_delete_user.
    rewrite find_filter_none_in; [reflexivity|].
    intros x Hx Hxe. apply text_eqb_eq in Hxe.
    rewrite (email_unique (users db) x u He Hx Hin Hxe).
    now rewrite Z.eqb_refl.
Qed.

Lemma find_map_same_key (f : Job.t -> Job.t) (k : Z) (l : list Job.t) :
  (forall x, Job.id (f x) = Job.id x) ->
  find (fun x => Job.id x =? k) (map f l)
  = option_map f (find (fun x => Job.id x =? k) l).
Proof.
  intros Hf. induction l as [| x l IH]; simpl; [reflexivity|].
  rewrite Hf. now destruct (Job.id x =? k).
Qed.

(** X17.  [edit_job] is a partial update.  For a job of a reachable
    database, edited by its poster or an admin: a field that the form
    carries is replaced by the trimmed value, a field that the form
    omits keeps its value; id, poster and creation time stay; every
    other job, and the other tables, stay as they are. *)
Theorem edit_job_partial_update (db : Db) (s : session) (jid : Z)
  (req : Request) (cu : User.t) (job : Job.t) :
  reachable generate_password_hash secure_filename db ->
  current_user db s = Some cu -> get_job db jid = Some job ->
  Job.posted_by_id job = User.id cu \/ User.is_admin cu = true ->
  method req = POST ->
  let value key old :=
    match get (form req) key with Some v => strip v | None => old end in
  let db' := snd (edit_job db s jid req) in
  get_job db' jid
  = Some (Job.mk jid
            (value "job_title"%string (Job.job_title job))
            (value "company"%string (Job.company job))
            (value "salary"%string (Job.salary job))
            (value "description"%string (Job.description job))
            (value "location"%string (Job.location job))
            (value "job_type"%string (Job.job_type job))
            (Job.created_at job) (Job.posted_by_id job))
  /\ (forall k, k <> jid -> get_job db' k = get_job db k)
  /\ users db' = users db /\ applications db' = applications db
  /\ uploads db' = uploads db.
Proof.
  intros Hr Hcu Hj Hauth Hm value db'.
  destruct (get_job_id _ _ _ Hj) as [Hin Hid].
  assert (Htrim : job_trimmed job).
  { destruct (reachable_invariants _ _ _ Hr) as (_ & _ & _ & _ & _ & Ht).
    unfold jobs_trimmed in Ht. rewrite Forall_forall in Ht. now apply Ht. }
  assert (Hgate : (negb (Job.posted_by_id job =? User.id cu)
                   && negb (User.is_admin cu))%bool = false).
  { destruct Hauth as [-> | ->]; [now rewrite Z.eqb_refl|].
    apply andb_false_r. }
  assert (Hval : forall key old, strip old = old ->
            strip (get_or (form req) key old) = value key old).
  { intros key old Hold. unfold value, get_or.
    now destruct (get (form req) key). }
  destruct Htrim as (H1 & H2 & H3 & H4 & H5 & H6).
  subst db'. unfold edit_job. rewrite Hcu, Hj, Hgate, Hm. simpl.
  rewrite !Hval by assumption. rewrite Hid.
  repeat split.
  - unfold get_job in *. simpl. rewrite find_map_same_key.
    + rewrite Hj. simpl. now rewrite Hid, Z.eqb_refl.
    + intros x. destruct (Z.eqb_spec (Job.id x) jid); simpl; congruence.
  - intros k Hk. unfold get_job. simpl. rewrite find_map_same_key.
    + destruct (find (fun x => Job.id x =? k) (jobs db)) as [x|] eqn:Hx;
        [|reflexivity].
      simpl. apply find_some in Hx. destruct Hx as [_ Hxk].
      apply Z.eqb_eq in Hxk.
      destruct (Z.eqb_spec (Job.id x) jid); [congruence | reflexivity].
    + intros x. destruct (Z.eqb_spec (Job.id x) jid); simpl; congruence.
Qed.

(** X18.  In every reachable database, each logged-in user can download
    the resume of each application by its stored name: the route checks
    the login and nothing else. *)
Theorem any_user_downloads_any_resume (db : Db) (s : session) (cu : User.t)
  (a : Application.t) (f : text) :
  reachable generate_password_hash secure_filename db ->
  current_user db s = Some cu ->
  In a (applications db) -> Application.resume_path a = Some f ->
  uploaded_resume db s f = inr f.
Proof.
  intros Hr Hcu Ha Hf.
  destruct (reachable_invariants _ _ _ Hr) as (_ & _ & _ & _ & Hs & _).
  unfold resumes_stored in Hs. rewrite Forall_forall in Hs.
  specialize (Hs a Ha f Hf).
  unfold uploaded_resume. rewrite Hcu.
  assert (Hex : existsb (text_eqb f) (uploads db) = true).
  { apply existsb_exists. exists f. split; [exact Hs | apply text_eqb_refl]. }
  now rewrite Hex.
Qed.

End Afterwards.

(* ================================================================== *)
(** ** Lists for the user, for the admin and for the search form *)
(* ================================================================== *)

Section Lists.

(** X19.  The dashboard of a logged-in user lists exactly the jobs that
    user posted and exactly the applications that user submitted, each
    row once per stored row and newest first; nothing of another user
    shows. *)
Theorem dashboard_shows_own_rows (db : Db) (s : session) (cu : User.t) :
  current_user db s = Some cu ->
  exists page,
    dashboard db s = inr page
    /\ Permutation (my_jobs page)
         (filter (fun j => Job.posted_by_id j =? User.id cu) (jobs db))
    /\ newest_first (my_jobs page)
    /\ Permutation (my_applications page)
         (filter (fun a => Application.applicant_id a =? User.id cu)
                 (applications db))
    /\ newest_first_by Application.created_at (my_applications page)
    /\ (forall j, In j (my_jobs page) -> Job.posted_by_id j = User.id cu)
    /\ (forall a, In a (my_applications page) ->
                  Application.applicant_id a = User.id cu).
Proof.
  intros Hcu. unfold dashboard. rewrite Hcu. eexists. split; [reflexivity|].
  simpl. unfold posted_jobs, user_applications.
  split; [apply order_by_perm|]. split; [apply order_by_sorted|].
  split; [apply order_by_desc_perm|]. split; [apply order_by_desc_sorted|].
  split.
  - intros j Hj. apply (Permutation_in _ (order_by_perm _)) in Hj.
    apply filter_In in Hj. now apply Z.eqb_eq.
  - intros a Ha. apply (Permutation_in _ (order_by_desc_perm _ _)) in Ha.
    apply filter_In in Ha. now apply Z.eqb_eq.
Qed.

(** X20.  For an admin, the console counts all users and all jobs and
    lists all users and all jobs, newest first. *)
Theorem admin_console_lists_all (db : Db) (s : session) (cu : User.t) :
  current_user db s = Some cu -> User.is_admin cu = true ->
  admin_index db s
  = inr (Z.of_nat (List.length (users db)), Z.of_nat (List.length (jobs db)))
  /\ (exists us, admin_users db s = inr us
                 /\ Permutation us (users db)
                 /\ newest_first_by User.created_at us)
  /\ (exists js, admin_jobs db s = inr js
                 /\ Permutation js (jobs db) /\ newest_first js).
Proof.
  intros Hcu Ha. unfold admin_index, admin_users, admin_jobs, admin_gate.
  rewrite Hcu, Ha. simpl. split; [reflexivity|]. split.
  - eexists. split; [reflexivity|].
    split; [apply order_by_desc_perm | apply order_by_desc_sorted].
  - eexists. split; [reflexivity|].
    split; [apply order_by_perm | apply order_by_sorted].
Qed.

(** X21.  The two dropdowns of the search form hold every company and
    every job type of a stored job exactly once, whatever the filters
    of the request are. *)
Theorem index_dropdowns (db : Db) (req : Request) :
  NoDup (page_companies (index db req))
  /\ (forall c, In c (page_companies (index db req))
                <-> exists j, In j (jobs db) /\ Job.company j = c)
  /\ NoDup (page_job_types (index db req))
  /\ (forall t, In t (page_job_types (index db req))
                <-> exists j, In j (jobs db) /\ Job.job_type j = t).
Proof.
  unfold index. simpl. repeat split; try apply NoDup_nodup.
  - intros H. apply nodup_In, in_map_iff in H.
    destruct H as (j & Hj & Hin). now exists j.
  - intros (j & Hin & <-). apply nodup_In. now apply in_map.
  - intros H. apply nodup_In, in_map_iff in H.
    destruct H as (j & Hj & Hin). now exists j.
  - intros (j & Hin & <-). apply nodup_In. now apply in_map.
Qed.




End Lists.

(* ================================================================== *)
(** ** Required fields and optional fields *)
(* ================================================================== *)

Section Fields.

Variable generate_password_hash : text -> text.
Variable secure_filename : text -> text.

(** X23.  Every request except one to [edit_job] keeps the invariant of
    the job table: once title, company and description of all stored
    jobs are non-empty, they are so after the request. *)
Theorem only_edit_job_can_blank_a_job (db : Db) (a : action) :
  (forall s j req, a <> do_edit_job s j req) ->
  jobs_valid db ->
  jobs_valid (run generate_password_hash secure_filename db a).
Proof.
  unfold jobs_valid. intros Hne Hv.
  assert (Hfilter : forall q, Forall fields_nonempty (filter q (jobs db))).
  { intros q. rewrite Forall_forall in *. intros k Hin.
    apply filter_In in Hin. now apply Hv. }
  assert (Hgen : forall js db0, Forall fields_nonempty (jobs db0) ->
            Forall fields_nonempty
                   (jobs (fold_left session_delete_job js db0))).
  { clear. induction js as [| k js IH]; intros db0 H0; simpl; [exact H0|].
    apply IH. rewrite jobs_session_delete_job.
    rewrite Forall_forall in *. intros x Hx. apply filter_In in Hx.
    now apply H0. }
  destruct a as [mail pwd t| s req | s req | s j req t
                 | s j req | s j | s u | s j]; simpl.
  - destruct (bootstrap_effect generate_password_hash mail pwd t db)
      as [(admin & _ & ->) | (u & -> & _)]; exact Hv.
  - destruct (register_effect generate_password_hash db s req)
      as [-> | (u & -> & _)]; exact Hv.
  - destruct (create_job_effect db s req)
      as [-> | (cu & job & _ & -> & _ & _ & _ & Hjob & _)]; [exact Hv|].
    simpl. apply Forall_app. split; [exact Hv|].
    constructor; [exact Hjob | constructor].
  - destruct (apply_effect secure_filename db s j req t)
      as [-> | (cu & job & b & saved & _ & _ & _ & -> & _)]; exact Hv.
  - now destruct (Hne s j req).
  - destruct (delete_job_effect db s j) as [-> | (cu & job & _ & _ & _ & ->)];
      [exact Hv|]. rewrite jobs_session_delete_job. apply Hfilter.
  - destruct (admin_delete_user_effect db s u)
      as [-> | (cu & v & _ & _ & _ & _ & ->)]; [exact Hv|].
    unfold session_delete_user. rewrite delete_rows. simpl.
    now apply Hgen.
  - destruct (admin_delete_job_effect db s j)
      as [-> | (cu & job & _ & _ & _ & ->)]; [exact Hv|].
    rewrite jobs_session_delete_job. apply Hfilter.
Qed.

(** X24.  The resume is optional: an application form without a file,
    or with a file whose name is empty, is accepted; the application is
    stored without a resume and with the trimmed cover letter, and the
    upload folder is left as it is. *)
Theorem apply_without_resume (db : Db) (s : session) (jid : Z) (req : Request)
  (inserted_at : Z) (cu : User.t) (job : Job.t) :
  current_user db s = Some cu -> get_job db jid = Some job ->
  applications_of db jid (User.id cu) = [] ->
  method req = POST ->
  get (files req) "resume" = None \/ get (files req) "resume" = Some [] ->
  apply secure_filename db s jid req inserted_at
  = (Redirect (Some application_submitted) (job_detail_ep jid),
     mkDb (users db) (jobs db)
          (applications db
           ++ [Application.mk
                 (next_id (map Application.id (applications db)))
                 (User.id cu) jid
                 (strip (get_or (form req) "cover_letter" []))
                 None inserted_at])
          (uploads db)).
Proof.
  intros Hcu Hj Hnone Hm Hfile. unfold apply. rewrite Hcu, Hj.
  destruct (get_job_id _ _ _ Hj) as [_ ->]. rewrite Hnone, Hm.
  now destruct Hfile as [-> | ->].
Qed.

(** X25.  The field checks of [register], for a form sent by an
    anonymous client.  Without an email field the request fails with an
    uncaught exception.  With one, a full name or an email that is blank
    after trimming, or an empty password or confirmation, is answered
    with "Please fill all the required fields.", before the passwords
    are compared and before the email is looked up.  Nothing is stored
    in either case. *)
Theorem register_required_fields (db : Db) (s : session) (req : Request) :
  current_user db s = None -> method req = POST ->
  (get (form req) "email" = None ->
   register generate_password_hash db s req = (ServerError, db, s))
  /\
  (forall e,
     get (form req) "email" = Some e ->
     strip (get_or (form req) "fullname" []) = []
     \/ strip e = []
     \/ get_or (form req) "password" [] = []
     \/ get_or (form req) "confirm" [] = [] ->
     register generate_password_hash db s req
     = (Redirect (Some fill_required) register_ep, db, s)).
Proof.
  intros Hcu Hm. unfold register. rewrite Hcu, Hm. split.
  - now intros ->.
  - intros e -> Hblank.
    assert (Hany : (is_empty (strip (get_or (form req) "fullname" []))
                    || is_empty (py_lower (strip e))
                    || is_empty (get_or (form req) "password" [])
                    || is_empty (get_or (form req) "confirm" []))%bool
                   = true).
    { destruct Hblank as [-> | [-> | [-> | ->]]]; simpl;
        rewrite ?orb_true_r; reflexivity. }
    now rewrite Hany.
Qed.

(** X26.  In every reachable database the text columns of every job
    carry no white space at either end: [create_job] and [edit_job]
    trim what they store, and trimming twice is trimming once. *)
Theorem job_fields_stay_trimmed (db : Db) (j : Job.t) :
  reachable generate_password_hash secure_filename db ->
  In j (jobs db) -> job_trimmed j.
Proof.
  intros Hr Hin.
  destruct (reachable_invariants _ _ _ Hr) as (_ & _ & _ & _ & _ & Ht).
  unfold jobs_trimmed in Ht. rewrite Forall_forall in Ht. now apply Ht.
Qed.

End Fields.

(* ================================================================== *)
(** ** The guarantees on the sample history *)
(* ================================================================== *)

Section MoreRuns.

Import Sample Story.

Lemma db_after_reachable : reachable hash secure db_after.
Proof. apply reachable_replay. constructor. Qed.

Lemma check_hash (pwd : text) : check (hash pwd) pwd = true.
Proof. apply text_eqb_refl. Qed.

Lemma references_never_dangle_witness :
  reachable hash secure db_after
  /\ keys_unique db_after /\ refs_ok db_after.
Proof.
  split; [exact db_after_reachable|].
  exact (references_never_dangle hash secure db_after db_after_reachable).
Defined.

Lemma never_two_applications_witness :
  reachable hash secure db_after
  /\ (application_count db_after 1 3 <= 1)%nat.
Proof.
  split; [exact db_after_reachable|].
  exact (never_two_applications hash secure db_after 1 3 db_after_reachable).
Defined.

Lemma emails_stay_unique_witness :
  reachable hash secure db_after /\ emails_unique db_after.
Proof.
  split; [exact db_after_reachable|].
  exact (emails_stay_unique hash secure db_after db_after_reachable).
Defined.

Lemma resumes_are_kept_witness :
  incl (uploads db_after)
       (uploads (run hash secure db_after (do_admin_delete_user (Some 1) 3)))
  /\ applications (run hash secure db_after (do_admin_delete_user (Some 1) 3))
     = []
  /\ resumes_stored db_after.
Proof.
  destruct (resumes_are_kept hash secure db_after
              (do_admin_delete_user (Some 1) 3)) as [Hkeep Hstored].
  split; [exact Hkeep|]. split; [reflexivity|].
  exact (Hstored db_after_reachable).
Defined.

Lemma requests_make_no_admin_witness :
  In site_admin
     (users (run hash secure db_after
                 (do_register None
                    (registration "Eve" "eve@x.com" "pw-e" "pw-e"))))
  /\ User.is_admin site_admin = true
  /\ In site_admin (users db_after).
Proof.
  assert (Hin : In site_admin
                  (users (run hash secure db_after
                    (do_register None
                       (registration "Eve" "eve@x.com" "pw-e" "pw-e")))))
    by (left; reflexivity).
  split; [exact Hin|]. split; [reflexivity|].
  apply (requests_make_no_admin hash secure db_after
           (do_register None (registration "Eve" "eve@x.com" "pw-e" "pw-e"))
           site_admin);
    [discriminate | exact Hin | reflexivity].
Defined.

Lemma anonymous_cannot_write_witness :
  current_user db_after None = None
  /\ create_job db_after None job_form = (LoginRequired, db_after).
Proof.
  split; [reflexivity|].
  destruct (anonymous_cannot_write secure db_after None eq_refl)
    as (Hcreate & _).
  apply Hcreate.
Defined.

Lemma job_writes_are_authorised_witness :
  edit_job db_applied (Some 3) 1
           (post_request [("job_title"%string, str "Mine")] [])
  = (Redirect (Some edit_not_allowed) (job_detail_ep 1), db_applied)
  /\ delete_job db_applied (Some 3) 1
     = (Redirect (Some delete_not_allowed) (job_detail_ep 1), db_applied).
Proof.
  destruct (job_writes_are_authorised db_applied (Some 3) 1
              (post_request [("job_title"%string, str "Mine")] []))
    as [Hstranger _].
  apply (Hstranger bob backend); try reflexivity. discriminate.
Defined.

Lemma admin_routes_need_admin_witness :
  current_user db_applied (Some 2) = Some alice
  /\ User.is_admin alice = false
  /\ admin_delete_user db_applied (Some 2) 3 = (Abort 403, db_applied).
Proof.
  split; [reflexivity|]. split; [reflexivity|].
  destruct (admin_routes_need_admin db_applied (Some 2) alice
              eq_refl eq_refl) as (Hdel & _).
  apply Hdel.
Defined.

Lemma register_logs_in_witness :
  register hash db_users None
    (registration "Carol" " Carol@X.com " "pw-c" "pw-c")
  = (Redirect (Some registered) index_ep, db_carol, Some 4)
  /\ exists u, current_user db_carol (Some 4) = Some u
               /\ User.is_admin u = false.
Proof.
  split; [reflexivity|].
  destruct (register_logs_in hash db_users db_carol None (Some 4)
              (registration "Carol" " Carol@X.com " "pw-c" "pw-c") index_ep
              eq_refl) as (u & Hu & _ & _ & Ha & _).
  exists u. now split.
Defined.

Lemma register_then_login_witness :
  register hash db_users None
    (registration "Carol" " Carol@X.com " "pw-c" "pw-c")
  = (Redirect (Some registered) index_ep, db_carol, Some 4)
  /\ login check db_carol None
       (registration "" "CAROL@x.com " "pw-c" "")
     = (AuthRedirect (Some logged_in) index_ep, Some 4).
Proof.
  split; [reflexivity|].
  exact (register_then_login hash check check_hash db_users db_carol
           None (Some 4)
           (registration "Carol" " Carol@X.com " "pw-c" "pw-c") index_ep
           (str " Carol@X.com ")
           (registration "" "CAROL@x.com " "pw-c" "") None
           eq_refl eq_refl eq_refl eq_refl eq_refl eq_refl).
Defined.

Lemma login_needs_credentials_witness :
  logs_in (fst (login check db_carol None
                      (registration "" "carol@x.com" "pw-c" ""))) = true
  /\ exists u,
       In u (users db_carol)
       /\ User.email u = str "carol@x.com"
       /\ snd (login check db_carol None
                     (registration "" "carol@x.com" "pw-c" ""))
          = Some (User.id u).
Proof.
  split; [reflexivity|].
  destruct (login_needs_credentials check db_carol None
              (registration "" "carol@x.com" "pw-c" "")) as [Honly _].
  destruct (Honly (or_introl eq_refl)) as (u & Hin & He & _ & Hs).
  exists u. split; [exact Hin|]. split; [exact He | exact Hs].
Defined.

Lemma job_detail_applied_witness :
  current_user db_applied (Some 3) = Some bob
  /\ get_job db_applied 1 = Some backend
  /\ job_detail db_applied (Some 3) 1 = inr (mkJobDetailPage backend true)
  /\ apply secure db_applied (Some 3) 1 application_form 700
     = (Redirect (Some already_applied) (job_detail_ep 1), db_applied).
Proof.
  split; [reflexivity|]. split; [reflexivity|]. split; [reflexivity|].
  destruct (job_detail_applied secure db_applied (Some 3) 1 bob backend
              application_form 700 eq_refl eq_refl) as (Hiff & _).
  apply Hiff. reflexivity.
Defined.

Lemma posted_job_is_listed_witness :
  let db' := snd (create_job db_users (Some 2) job_form) in
  create_job db_users (Some 2) job_form
  = (Redirect (Some job_posted) (job_detail_ep 1), db')
  /\ no_filters (get_request [])
  /\ exists job,
       get_job db' 1 = Some job
       /\ In job (page_jobs (index db' (get_request []))).
Proof.
  cbv zeta. split; [reflexivity|].
  assert (Hn : no_filters (get_request [])) by (repeat split).
  split; [exact Hn|].
  destruct (posted_job_is_listed db_users
              (snd (create_job db_users (Some 2) job_form)) (Some 2)
              job_form 1 (get_request []) eq_refl Hn)
    as (job & Hget & _ & _ & Hin & _).
  exists job. now split.
Defined.

Lemma deleted_job_is_gone_witness :
  let db' := snd (delete_job db_applied (Some 2) 1) in
  delete_job db_applied (Some 2) 1
  = (Redirect (Some job_deleted) index_ep, db')
  /\ get_job db' 1 = None
  /\ job_detail db' (Some 3) 1 = inl (Abort 404).
Proof.
  cbv zeta. split; [reflexivity|].
  destruct (deleted_job_is_gone secure db_applied
              (snd (delete_job db_applied (Some 2) 1)) (Some 2) 1 index_ep
              (or_introl eq_refl)) as (Hgone & Hpage & _).
  split; [exact Hgone | apply Hpage].
Defined.

Lemma deleted_user_is_locked_out_witness :
  let db' := snd (admin_delete_user db_applied (Some 1) 3) in
  emails_unique db_applied
  /\ admin_delete_user db_applied (Some 1) 3
     = (Redirect (Some user_deleted) admin_users_ep, db')
  /\ current_user db' (Some 3) = None
  /\ login check db' None (registration "" "Bob@x.com" "pw-b" "")
     = (AuthRedirect (Some invalid_credentials) login_ep, None).
Proof.
  cbv zeta.
  assert (He : emails_unique db_applied).
  { repeat constructor; simpl; intuition discriminate. }
  split; [exact He|]. split; [reflexivity|].
  destruct (deleted_user_is_locked_out check db_applied
              (snd (admin_delete_user db_applied (Some 1) 3)) (Some 1) 3
              admin_users_ep He eq_refl) as (u & Hu & Hvoid & Hlogin).
  split; [exact Hvoid|].
  injection Hu as <-.
  apply Hlogin; reflexivity.
Defined.

Lemma edit_job_partial_update_witness :
  let req := post_request [("salary"%string, str " 10 LPA ")] [] in
  reachable hash secure db_after
  /\ map (fun j => (Job.job_title j, Job.salary j))
         (jobs (snd (edit_job db_after (Some 2) 1 req)))
     = [(str "Backend Engineer", str "10 LPA")]
  /\ users (snd (edit_job db_after (Some 2) 1 req)) = users db_after.
Proof.
  cbv zeta. split; [exact db_after_reachable|].
  split; [reflexivity|].
  destruct (edit_job_partial_update hash secure db_after (Some 2) 1
              (post_request [("salary"%string, str " 10 LPA ")] [])
              _ _ db_after_reachable eq_refl eq_refl
              (or_introl eq_refl) eq_refl) as (_ & _ & Hu & _).
  exact Hu.
Defined.

Lemma any_user_downloads_any_resume_witness :
  reachable hash secure db_after
  /\ map Application.applicant_id (applications db_after) = [3]
  /\ uploaded_resume db_after (Some 2) (str "3_0_cv.pdf")
     = inr (str "3_0_cv.pdf").
Proof.
  split; [exact db_after_reachable|]. split; [reflexivity|].
  refine (any_user_downloads_any_resume hash secure db_after (Some 2) _ _ _
            db_after_reachable eq_refl (or_introl eq_refl) eq_refl).
Defined.

Lemma dashboard_shows_own_rows_witness :
  current_user db_applied (Some 3) = Some bob
  /\ exists page,
       dashboard db_applied (Some 3) = inr page
       /\ Permutation (my_applications page) [bob_backend].
Proof.
  split; [reflexivity|].
  destruct (dashboard_shows_own_rows db_applied (Some 3) bob eq_refl)
    as (page & Hpage & _ & _ & Happs & _).
  exists page. split; [exact Hpage | exact Happs].
Defined.

Lemma admin_console_lists_all_witness :
  current_user db_applied (Some 1) = Some site_admin
  /\ User.is_admin site_admin = true
  /\ admin_index db_applied (Some 1) = inr (3, 1).
Proof.
  split; [reflexivity|]. split; [reflexivity|].
  destruct (admin_console_lists_all db_applied (Some 1) site_admin
              eq_refl eq_refl) as (Hcount & _).
  exact Hcount.
Defined.


Lemma only_edit_job_can_blank_a_job_witness :
  jobs_valid db_after
  /\ jobs_valid (run hash secure db_after (do_create_job (Some 2) job_form)).
Proof.
  assert (Hv : jobs_valid db_after).
  { repeat constructor; discriminate. }
  split; [exact Hv|].
  apply (only_edit_job_can_blank_a_job hash secure db_after
           (do_create_job (Some 2) job_form)); [discriminate | exact Hv].
Defined.

Lemma apply_without_resume_witness :
  let req := post_request [("cover_letter"%string, str " Hi ")]
                          [("resume"%string, [])] in
  current_user db_one_job (Some 3) = Some bob
  /\ get (files req) "resume" = Some []
  /\ apply secure db_one_job (Some 3) 1 req 400
     = (Redirect (Some application_submitted) (job_detail_ep 1), db_applied).
Proof.
  cbv zeta. split; [reflexivity|]. split; [reflexivity|].
  exact (apply_without_resume secure db_one_job (Some 3) 1
           (post_request [("cover_letter"%string, str " Hi ")]
                         [("resume"%string, [])])
           400 bob backend eq_refl eq_refl eq_refl eq_refl
           (or_intror eq_refl)).
Defined.

Lemma register_required_fields_witness :
  current_user db_users None = None
  /\ register hash db_users None
       (post_request [("fullname"%string, str "Dan")] [])
     = (ServerError, db_users, None)
  /\ register hash db_users None (registration "  " "dan@x.com" "pw" "pw")
     = (Redirect (Some fill_required) register_ep, db_users, None).
Proof.
  split; [reflexivity|]. split.
  - destruct (register_required_fields hash db_users None
                (post_request [("fullname"%string, str "Dan")] [])
                eq_refl eq_refl) as [Hcrash _].
    apply Hcrash. reflexivity.
  - destruct (register_required_fields hash db_users None
                (registration "  " "dan@x.com" "pw" "pw")
                eq_refl eq_refl) as [_ Hblank].
    apply (Hblank (str "dan@x.com")); [reflexivity|]. left. reflexivity.
Defined.

Lemma job_fields_stay_trimmed_witness :
  reachable hash secure db_after
  /\ map Job.job_title (jobs db_after) = [str "Backend Engineer"]
  /\ Forall job_trimmed (jobs db_after).
Proof.
  split; [exact db_after_reachable|]. split; [reflexivity|].
  apply Forall_forall. intros j Hj.
  exact (job_fields_stay_trimmed hash secure db_after j
           db_after_reachable Hj).
Defined.

Lemma lowercase_emails_reject_case_variants_witness :
  emails_lower db_users
  /\ register hash db_users None
       (registration "Bobby" " BOB@X.com" "pw-x" "pw-x")
     = (Redirect (Some email_registered) login_ep, db_users, None).
Proof.
  assert (Hl : emails_lower db_users).
  { repeat constructor. }
  split; [exact Hl|].
  destruct (lowercase_emails_reject_case_variants hash db_users None
              (registration "Bobby" " BOB@X.com" "pw-x" "pw-x") Hl)
    as [_ Htaken].
  refine (proj1 (Htaken (str " BOB@X.com") bob eq_refl _ _ eq_refl)).
  - repeat split; vm_compute; discriminate.
  - right. right. left. reflexivity.
Defined.

(** The free text of [index] ends at a NUL character: here the pattern
    that reaches the engine is "%r", which the title matches, although
    the text sent is no substring of title or description. *)
Example index_nul_in_query :
  let q := (str "r" ++ ["000"%char] ++ str "zzz")%list in
  page_jobs (index db_one_job (get_request [("q"%string, q)])) = [backend]
  /\ contains_ci q (Job.job_title backend) = false
  /\ contains_ci q (Job.description backend) = false.
Proof. vm_compute. auto. Qed.

(** C3.  Registration does not turn down every email that equals a
    stored one up to case.  The start-up block stores ADMIN_EMAIL as it
    is given, while [register] and [login] lower-case the email of the
    form and look it up exactly.  After a start with
    ADMIN_EMAIL=Admin@X.com, a registration with admin@x.com, which
    equals the admin's email up to case, is accepted and a second user
    is stored; and the admin cannot log in with the configured email and
    password. *)
Theorem register_accepts_admin_email_in_other_case :
  let req := registration "Mallory" "admin@x.com" "pw-m" "pw-m" in
  map User.email (users db_mixed_case_admin) = [str "Admin@X.com"]
  /\ py_lower (strip (str "admin@x.com")) = py_lower (str "Admin@X.com")
  /\ registration_filled req (str "admin@x.com")
  /\ fst (fst (register hash db_mixed_case_admin None req))
     = Redirect (Some registered) index_ep
  /\ map User.email
         (users (snd (fst (register hash db_mixed_case_admin None req))))
     = [str "Admin@X.com"; str "admin@x.com"]
  /\ check (hash (str "Admin@123")) (str "Admin@123") = true
  /\ login check db_mixed_case_admin None
           (registration "" "Admin@X.com" "Admin@123" "")
     = (AuthRedirect (Some invalid_credentials) login_ep, None).
Proof.
  cbv zeta. split; [reflexivity|]. split; [reflexivity|].
  split; [repeat split; vm_compute; discriminate|].
  split; [reflexivity|]. split; [reflexivity|].
  split; reflexivity.
Qed.

End MoreRuns.
